(** * MyKaasu: the import review workflow and the dashboard balance figures

  A shallow embedding of
  - [frontend/src/components/Dashboard.tsx]: the summary figures
    [totalIncome], [youOwe] and [netBalance];
  - [frontend/src/components/ImportPage.tsx]: the fetch of candidates
    ([handleImportExpenses]), the list filters ([applyFilters]), the start
    of a review ([handleAddToExpenses]), the modal's edit handlers and the
    two advancing handlers ([handleSaveExpense], [handleSkipExpense]).

  A JavaScript [number] is an IEEE 754 binary64 value, which is what the
  kernel's primitive [float] is, so the arithmetic below rounds exactly as
  the program's does.  React state is one record with a field per
  [useState] cell; what lies outside the component (the expense store
  behind [POST /expenses], the parent's [onExpenseAdded] callback) is an
  explicit [World]. *)

From Stdlib Require Import Floats.
From Stdlib Require Import ZArith Lia Permutation.
From Stdlib Require Uint63.
From stdpp Require Import base option list strings pretty gmap.

Set Warnings "-inexact-float".

(** ** JavaScript values *)

Module JS.

(** [number]: 0, -0 and NaN are the falsy ones. *)
Definition truthy_number (x : float) : bool :=
  negb (PrimFloat.is_zero x || PrimFloat.is_nan x).

(** [x || d] for a [number] [x]. *)
Definition number_or (x d : float) : float :=
  if truthy_number x then x else d.

(** [x || d] for an optional [number] ([undefined] is falsy). *)
Definition opt_number_or (x : option float) (d : float) : float :=
  match x with
  | Some v => number_or v d
  | None => d
  end.

(** [string]: only the empty string is falsy. *)
Definition truthy_string (s : string) : bool :=
  negb (String.eqb s "").

Definition string_or (s d : string) : string :=
  if truthy_string s then s else d.

Definition opt_string_or (s : option string) (d : string) : string :=
  match s with
  | Some v => string_or v d
  | None => d
  end.

(** [x ?? d]: only [undefined] falls through.  The program never uses it;
    it is here to write down the totals as the specification words them. *)
Definition nullish_or (x : option float) (d : float) : float :=
  match x with
  | Some v => v
  | None => d
  end.

(** The [number] that holds the whole number [n]; exact for
    [0 <= n < 2^53], the safe integers. *)
Definition whole (n : Z) : float := PrimFloat.of_uint63 (Uint63.of_Z n).

End JS.

(** ** Binary64: the doubles of the whole numbers *)

Module Binary64.

(** [p * 2^k] for [0 <= k], as the alignment of two mantissas computes it. *)
Definition shiftp (p : positive) (k : Z) : positive :=
  match k with
  | Zpos t => Pos.iter xO p t
  | _ => p
  end.

(** The normal double of the whole number [v < 2^53]: a mantissa of 53
    bits, [v * 2^(53 - digits v)], and the exponent that undoes the shift. *)
Definition canon (v : positive) : spec_float :=
  S754_finite false (shiftp v (53 - Zpos (digits2_pos v)))
              (Zpos (digits2_pos v) - 53).

Definition wholeSF (n : Z) : spec_float :=
  match n with
  | Zpos v => canon v
  | _ => S754_zero false
  end.

Definition sumZ (ns : list Z) : Z := fold_right Z.add 0%Z ns.

End Binary64.

(** ** Dashboard.tsx: the summary figures *)

Module Dashboard.

(** [interface Expense] *)
Module Expense.
Record t := mk {
  id : string;
  description : string;
  amount : float;
  currency : string;
  date : string;
  category : option string;
  expense_type : option string;
  expense_title : option string;
  net_balance : option float;
  total_expense : option float;
  owed_share : option float;
  group_id : option string;
  group_name : option string
}.
End Expense.

(** [interface Income] *)
Module Income.
Record t := mk {
  id : string;
  description : string;
  amount : float;
  currency : string;
  date : string;
  category : option string;
  source : option string
}.
End Income.

(** [income.reduce((sum, i) => sum + (i.amount || 0), 0)] *)
Definition totalIncome (income : list Income.t) : float :=
  fold_left (fun sum i => (sum + JS.number_or (Income.amount i) 0)%float)
            income 0%float.

(** [expenses.reduce((sum, e) => sum + (e.owed_share || 0), 0)] *)
Definition youOwe (expenses : list Expense.t) : float :=
  fold_left (fun sum e => (sum + JS.opt_number_or (Expense.owed_share e) 0)%float)
            expenses 0%float.

(** [totalIncome - youOwe] *)
Definition netBalance (income : list Income.t) (expenses : list Expense.t) : float :=
  (totalIncome income - youOwe expenses)%float.

(** What one expense adds to [youOwe]. *)
Definition contribution (e : Expense.t) : float :=
  JS.opt_number_or (Expense.owed_share e) 0%float.

(** The total owed as the specification words it:
    [sum(expenses.owed_share ?? expenses.amount)]. *)
Definition spec_totalOwed (expenses : list Expense.t) : float :=
  fold_left (fun sum e =>
               (sum + JS.nullish_or (Expense.owed_share e) (Expense.amount e))%float)
            expenses 0%float.

Definition with_expense_type (ty : option string) (e : Expense.t) : Expense.t :=
  Expense.mk (Expense.id e) (Expense.description e) (Expense.amount e)
             (Expense.currency e) (Expense.date e) (Expense.category e)
             ty (Expense.expense_title e) (Expense.net_balance e)
             (Expense.total_expense e) (Expense.owed_share e)
             (Expense.group_id e) (Expense.group_name e).

(** A manually entered or imported expense, all optional fields but
    [owed_share] and [expense_type] left out. *)
Definition sample (i : string) (a : float) (o : option float) (ty : option string)
  : Expense.t :=
  Expense.mk i "item" a "USD" "2024-01-01" None ty None None None o None None.

(** [x] is the whole number [n], and [n] is not negative. *)
Definition isWhole (x : float) (n : Z) : Prop :=
  (0 <= n)%Z /\ x = JS.whole n.

(** The income's amount is the whole number [n]. *)
Definition incomeIs (i : Income.t) (n : Z) : Prop :=
  isWhole (Income.amount i) n.

(** The expense's share is the whole number [n]; no share counts as 0. *)
Definition owedIs (e : Expense.t) (n : Z) : Prop :=
  match Expense.owed_share e with
  | Some o => isWhole o n
  | None => n = 0%Z
  end.

Definition sample_income (i : string) (a : float) : Income.t :=
  Income.mk i "pay" a "USD" "2024-01-01" None None.

End Dashboard.

(** ** ImportPage.tsx: data *)

Module ImportPage.

(** [interface ImportedExpense], a candidate as the import endpoint returns
    it.  The last three fields are not in the interface; the component reads
    them off the same objects through [as any]. *)
Module ImportedExpense.
Record t := mk {
  id : string;
  description : string;
  amount : float;
  currency : string;
  date : string;
  category : option string;
  expense_type : option string;
  net_balance : option float;
  total_expense : option float;
  owed_share : option float;
  splitwise_id : option string;
  group_id : option string;
  paid_share : option float;
  (** Modelled from the spec: the wire type of [already_imported].  The
      component sees the response as [any] and only tests [!e.already_imported];
      the data model makes the field a boolean that is always set. *)
  already_imported : bool
}.
End ImportedExpense.

(** [interface Group] *)
Module Group.
Record t := mk {
  id : string;
  name : string;
  description : option string;
  color : option string
}.
End Group.

(** The body of [POST /expenses] that [handleSaveExpense] builds. *)
Module ExpenseData.
Record t := mk {
  description : string;
  amount : float;
  currency : string;
  date : string;
  category : string;
  group_id : string;
  group_name : string;
  expense_type : string;
  owed_share : float;
  paid_share : float;
  splitwise_id : string
}.
End ExpenseData.

(** The component's [useState] cells that its handlers read or write.
    [filteredExpenses] is not a field: an effect recomputes it from
    [importedExpenses] and the filters after every change of either, so at
    the time of a user action it is [applyFilters] of the current state. *)
Record State := mkState {
  importedExpenses : list ImportedExpense.t;
  selectedExpenses : gset string;
  loading : bool;
  message : string;
  error : string;
  showImportForm : bool;
  startDate : string;
  endDate : string;
  selectedMonth : string;
  filterCategory : string;
  filterType : string;
  filterDateFrom : string;
  filterDateTo : string;
  searchQuery : string;
  showEditModal : bool;
  expensesToConfirm : list ImportedExpense.t;
  editingExpenseIndex : nat;
  groups : list Group.t;
  editingExpense : option ImportedExpense.t
}.

(** The state of a freshly mounted component. *)
Definition initial : State :=
  mkState [] ∅ false "" "" false "" "" "" "" "" "" "" "" false [] 0 [] None.

(** What the component acts on: the expenses the store has accepted through
    [POST /expenses], oldest first, and how often the parent's
    [onExpenseAdded] has run. *)
Record World := mkWorld {
  posted : list ExpenseData.t;
  refreshes : nat
}.

(** [interface ImportPageProps]: whether the parent passed [onExpenseAdded]
    ([onBack] is never called). *)
Record Props := mkProps {
  onExpenseAdded : bool
}.

(** One call of [onExpenseAdded].  The dashboard passes
    [() => fetchExpenses(expensesPage)], a read of the store. *)
Definition notified (w : World) : World :=
  mkWorld (posted w) (S (refreshes w)).

(** [<ImportPage onExpenseAdded={...} />] as the dashboard mounts it. *)
Definition dashboardProps : Props := mkProps true.

(** How [axios.post(`${API_URL}/expenses`, ...)] ends: it resolves, or it
    throws with an optional [err.response.data.detail]. *)
Inductive PostResult :=
| Accepted
| Rejected (detail : option string).

(** How [axios.post(`${API_URL}/splitwise/import`, ...)] ends: it resolves
    with [response.data.expenses] and [response.data.message], either of
    which may be missing, or it throws. *)
Inductive ImportResult :=
| Imported (expenses : option (list ImportedExpense.t)) (msg : option string)
| ImportFailed (detail : option string).

(** The modal's six inputs; [EditAmount] carries
    [parseFloat(e.target.value)]. *)
Inductive Edit :=
| EditDescription (value : string)
| EditAmount (parsed : float)
| EditCurrency (value : string)
| EditDate (value : string)
| EditCategory (value : string)
| EditGroup (value : string).

(** ** ImportPage.tsx: the state setters

    One per [useState] setter a handler calls; each replaces its own cell
    and leaves the others. *)

Definition setImportedExpenses (v : list ImportedExpense.t) (s : State) : State :=
  mkState v (selectedExpenses s) (loading s) (message s) (error s)
    (showImportForm s) (startDate s) (endDate s) (selectedMonth s)
    (filterCategory s) (filterType s) (filterDateFrom s) (filterDateTo s)
    (searchQuery s) (showEditModal s) (expensesToConfirm s)
    (editingExpenseIndex s) (groups s) (editingExpense s).

Definition setSelectedExpenses (v : gset string) (s : State) : State :=
  mkState (importedExpenses s) v (loading s) (message s) (error s)
    (showImportForm s) (startDate s) (endDate s) (selectedMonth s)
    (filterCategory s) (filterType s) (filterDateFrom s) (filterDateTo s)
    (searchQuery s) (showEditModal s) (expensesToConfirm s)
    (editingExpenseIndex s) (groups s) (editingExpense s).

Definition setLoading (v : bool) (s : State) : State :=
  mkState (importedExpenses s) (selectedExpenses s) v (message s) (error s)
    (showImportForm s) (startDate s) (endDate s) (selectedMonth s)
    (filterCategory s) (filterType s) (filterDateFrom s) (filterDateTo s)
    (searchQuery s) (showEditModal s) (expensesToConfirm s)
    (editingExpenseIndex s) (groups s) (editingExpense s).

Definition setMessage (v : string) (s : State) : State :=
  mkState (importedExpenses s) (selectedExpenses s) (loading s) v (error s)
    (showImportForm s) (startDate s) (endDate s) (selectedMonth s)
    (filterCategory s) (filterType s) (filterDateFrom s) (filterDateTo s)
    (searchQuery s) (showEditModal s) (expensesToConfirm s)
    (editingExpenseIndex s) (groups s) (editingExpense s).

Definition setError (v : string) (s : State) : State :=
  mkState (importedExpenses s) (selectedExpenses s) (loading s) (message s) v
    (showImportForm s) (startDate s) (endDate s) (selectedMonth s)
    (filterCategory s) (filterType s) (filterDateFrom s) (filterDateTo s)
    (searchQuery s) (showEditModal s) (expensesToConfirm s)
    (editingExpenseIndex s) (groups s) (editingExpense s).

Definition setShowImportForm (v : bool) (s : State) : State :=
  mkState (importedExpenses s) (selectedExpenses s) (loading s) (message s)
    (error s) v (startDate s) (endDate s) (selectedMonth s) (filterCategory s)
    (filterType s) (filterDateFrom s) (filterDateTo s) (searchQuery s)
    (showEditModal s) (expensesToConfirm s) (editingExpenseIndex s) (groups s)
    (editingExpense s).

Definition setStartDate (v : string) (s : State) : State :=
  mkState (importedExpenses s) (selectedExpenses s) (loading s) (message s)
    (error s) (showImportForm s) v (endDate s) (selectedMonth s)
    (filterCategory s) (filterType s) (filterDateFrom s) (filterDateTo s)
    (searchQuery s) (showEditModal s) (expensesToConfirm s)
    (editingExpenseIndex s) (groups s) (editingExpense s).

Definition setEndDate (v : string) (s : State) : State :=
  mkState (importedExpenses s) (selectedExpenses s) (loading s) (message s)
    (error s) (showImportForm s) (startDate s) v (selectedMonth s)
    (filterCategory s) (filterType s) (filterDateFrom s) (filterDateTo s)
    (searchQuery s) (showEditModal s) (expensesToConfirm s)
    (editingExpenseIndex s) (groups s) (editingExpense s).

Definition setSelectedMonth (v : string) (s : State) : State :=
  mkState (importedExpenses s) (selectedExpenses s) (loading s) (message s)
    (error s) (showImportForm s) (startDate s) (endDate s) v
    (filterCategory s) (filterType s) (filterDateFrom s) (filterDateTo s)
    (searchQuery s) (showEditModal s) (expensesToConfirm s)
    (editingExpenseIndex s) (groups s) (editingExpense s).

Definition setShowEditModal (v : bool) (s : State) : State :=
  mkState (importedExpenses s) (selectedExpenses s) (loading s) (message s)
    (error s) (showImportForm s) (startDate s) (endDate s) (selectedMonth s)
    (filterCategory s) (filterType s) (filterDateFrom s) (filterDateTo s)
    (searchQuery s) v (expensesToConfirm s) (editingExpenseIndex s) (groups s)
    (editingExpense s).

Definition setExpensesToConfirm (v : list ImportedExpense.t) (s : State) : State :=
  mkState (importedExpenses s) (selectedExpenses s) (loading s) (message s)
    (error s) (showImportForm s) (startDate s) (endDate s) (selectedMonth s)
    (filterCategory s) (filterType s) (filterDateFrom s) (filterDateTo s)
    (searchQuery s) (showEditModal s) v (editingExpenseIndex s) (groups s)
    (editingExpense s).

Definition setEditingExpenseIndex (v : nat) (s : State) : State :=
  mkState (importedExpenses s) (selectedExpenses s) (loading s) (message s)
    (error s) (showImportForm s) (startDate s) (endDate s) (selectedMonth s)
    (filterCategory s) (filterType s) (filterDateFrom s) (filterDateTo s)
    (searchQuery s) (showEditModal s) (expensesToConfirm s) v (groups s)
    (editingExpense s).

Definition setEditingExpense (v : option ImportedExpense.t) (s : State) : State :=
  mkState (importedExpenses s) (selectedExpenses s) (loading s) (message s)
    (error s) (showImportForm s) (startDate s) (endDate s) (selectedMonth s)
    (filterCategory s) (filterType s) (filterDateFrom s) (filterDateTo s)
    (searchQuery s) (showEditModal s) (expensesToConfirm s)
    (editingExpenseIndex s) (groups s) v.

Definition setFilterCategory (v : string) (s : State) : State :=
  mkState (importedExpenses s) (selectedExpenses s) (loading s) (message s)
    (error s) (showImportForm s) (startDate s) (endDate s) (selectedMonth s) v
    (filterType s) (filterDateFrom s) (filterDateTo s) (searchQuery s)
    (showEditModal s) (expensesToConfirm s) (editingExpenseIndex s) (groups s)
    (editingExpense s).

Definition setFilterType (v : string) (s : State) : State :=
  mkState (importedExpenses s) (selectedExpenses s) (loading s) (message s)
    (error s) (showImportForm s) (startDate s) (endDate s) (selectedMonth s)
    (filterCategory s) v (filterDateFrom s) (filterDateTo s) (searchQuery s)
    (showEditModal s) (expensesToConfirm s) (editingExpenseIndex s) (groups s)
    (editingExpense s).

Definition setFilterDateFrom (v : string) (s : State) : State :=
  mkState (importedExpenses s) (selectedExpenses s) (loading s) (message s)
    (error s) (showImportForm s) (startDate s) (endDate s) (selectedMonth s)
    (filterCategory s) (filterType s) v (filterDateTo s) (searchQuery s)
    (showEditModal s) (expensesToConfirm s) (editingExpenseIndex s) (groups s)
    (editingExpense s).

Definition setFilterDateTo (v : string) (s : State) : State :=
  mkState (importedExpenses s) (selectedExpenses s) (loading s) (message s)
    (error s) (showImportForm s) (startDate s) (endDate s) (selectedMonth s)
    (filterCategory s) (filterType s) (filterDateFrom s) v (searchQuery s)
    (showEditModal s) (expensesToConfirm s) (editingExpenseIndex s) (groups s)
    (editingExpense s).

Definition setSearchQuery (v : string) (s : State) : State :=
  mkState (importedExpenses s) (selectedExpenses s) (loading s) (message s)
    (error s) (showImportForm s) (startDate s) (endDate s) (selectedMonth s)
    (filterCategory s) (filterType s) (filterDateFrom s) (filterDateTo s) v
    (showEditModal s) (expensesToConfirm s) (editingExpenseIndex s) (groups s)
    (editingExpense s).

Definition setGroups (v : list Group.t) (s : State) : State :=
  mkState (importedExpenses s) (selectedExpenses s) (loading s) (message s)
    (error s) (showImportForm s) (startDate s) (endDate s) (selectedMonth s)
    (filterCategory s) (filterType s) (filterDateFrom s) (filterDateTo s)
    (searchQuery s) (showEditModal s) (expensesToConfirm s)
    (editingExpenseIndex s) v (editingExpense s).

(** ** ImportPage.tsx: the handlers *)

(** [{ ...editingExpense, <field>: <value> }], one case per input of the
    modal.  The amount input writes [owed_share: parseFloat(...) || 0]. *)
Definition applyEdit (ed : Edit) (e : ImportedExpense.t) : ImportedExpense.t :=
  let '(ImportedExpense.mk i d a c dt cat ty nb te os sw g ps ai) := e in
  match ed with
  | EditDescription v => ImportedExpense.mk i v a c dt cat ty nb te os sw g ps ai
  | EditAmount p =>
      ImportedExpense.mk i d a c dt cat ty nb te (Some (JS.number_or p 0%float))
                         sw g ps ai
  | EditCurrency v => ImportedExpense.mk i d a v dt cat ty nb te os sw g ps ai
  | EditDate v => ImportedExpense.mk i d a c v cat ty nb te os sw g ps ai
  | EditCategory v => ImportedExpense.mk i d a c dt (Some v) ty nb te os sw g ps ai
  | EditGroup v => ImportedExpense.mk i d a c dt cat ty nb te os sw (Some v) ps ai
  end.

(** An [onChange] of the modal.  The modal is rendered only under
    [showEditModal && editingExpense], so without a current candidate there
    is no input to change. *)
Definition handleEdit (ed : Edit) (st : State) : State :=
  match editingExpense st with
  | Some e => setEditingExpense (Some (applyEdit ed e)) st
  | None => st
  end.

(** [groups.find(g => g.id === (editingExpense as any).group_id)?.name || ''] *)
Definition groupName (gs : list Group.t) (gid : option string) : string :=
  match List.find (fun g => match gid with
                            | Some i => String.eqb (Group.id g) i
                            | None => false
                            end) gs with
  | Some g => JS.string_or (Group.name g) ""
  | None => ""
  end.

(** The object literal [expenseData] of [handleSaveExpense]. *)
Definition expenseData (gs : list Group.t) (e : ImportedExpense.t) : ExpenseData.t :=
  ExpenseData.mk
    (ImportedExpense.description e)
    (JS.number_or
       (JS.opt_number_or (ImportedExpense.owed_share e) (ImportedExpense.amount e))
       0%float)
    (ImportedExpense.currency e)
    (ImportedExpense.date e)
    (JS.opt_string_or (ImportedExpense.category e) "")
    (JS.opt_string_or (ImportedExpense.group_id e) "")
    (groupName gs (ImportedExpense.group_id e))
    (JS.opt_string_or (ImportedExpense.expense_type e) "borrowed")
    (JS.number_or
       (JS.opt_number_or (ImportedExpense.owed_share e) (ImportedExpense.amount e))
       0%float)
    (JS.opt_number_or (ImportedExpense.paid_share e) 0%float)
    (JS.opt_string_or (ImportedExpense.splitwise_id e) (ImportedExpense.id e)).

(** [importedExpenses.filter(e => !selectedExpenses.has(e.id))] *)
Definition unselected (st : State) : list ImportedExpense.t :=
  List.filter (fun e => negb (bool_decide (ImportedExpense.id e ∈ selectedExpenses st)))
              (importedExpenses st).

(** The six setters both handlers call when the last candidate is done. *)
Definition closeReview (st : State) : State :=
  setEditingExpenseIndex 0
    (setEditingExpense None
       (setExpensesToConfirm []
          (setSelectedExpenses ∅
             (setImportedExpenses (unselected st)
                (setShowEditModal false st))))).

(** [setEditingExpenseIndex(nextIndex);
     setEditingExpense(expensesToConfirm[nextIndex])] *)
Definition moveTo (nextIndex : nat) (st : State) : State :=
  setEditingExpense (expensesToConfirm st !! nextIndex)
    (setEditingExpenseIndex nextIndex st).

(** [handleSaveExpense], given how its [POST] ends, when the answer comes
    before anything else happens on the page: the state at the click is
    then also the state the setters write into.  [saveAnswer] below is the
    handler without that proviso. *)
Definition handleSaveExpense (props : Props) (r : PostResult)
    (st : State) (w : World) : State * World :=
  match editingExpense st with
  | None => (st, w)
  | Some e =>
      match r with
      | Rejected detail =>
          (setError (JS.opt_string_or detail "Failed to save expense") st, w)
      | Accepted =>
          let w := mkWorld (posted w ++ [expenseData (groups st) e]) (refreshes w) in
          let nextIndex := editingExpenseIndex st + 1 in
          if nextIndex <? length (expensesToConfirm st) then
            (moveTo nextIndex st, w)
          else
            let st' :=
              setMessage
                ("Successfully added " +:+ pretty (length (expensesToConfirm st))
                   +:+ " expense(s) to your expenses!")
                (closeReview st) in
            (st', if onExpenseAdded props then notified w else w)
      end
  end.

(** [handleSaveExpense] as the page runs it.  The click calls the handler
    of the render it belongs to, with state [snap]: the guard, [expenseData],
    [nextIndex], the length it is compared with and the list that is
    filtered are all read from [snap].  The setters stand after the [await]:
    they run when the [POST] is answered and write into [cur], the state of
    the page at that time, whose other cells stay as they are. *)
Definition saveAnswer (props : Props) (r : PostResult)
    (snap cur : State) (w : World) : State * World :=
  match editingExpense snap with
  | None => (cur, w)
  | Some e =>
      match r with
      | Rejected detail =>
          (setError (JS.opt_string_or detail "Failed to save expense") cur, w)
      | Accepted =>
          let w := mkWorld (posted w ++ [expenseData (groups snap) e]) (refreshes w) in
          let nextIndex := editingExpenseIndex snap + 1 in
          if nextIndex <? length (expensesToConfirm snap) then
            (setEditingExpense (expensesToConfirm snap !! nextIndex)
               (setEditingExpenseIndex nextIndex cur), w)
          else
            let st' :=
              setMessage
                ("Successfully added " +:+ pretty (length (expensesToConfirm snap))
                   +:+ " expense(s) to your expenses!")
                (setEditingExpenseIndex 0
                   (setEditingExpense None
                      (setExpensesToConfirm []
                         (setSelectedExpenses ∅
                            (setImportedExpenses (unselected snap)
                               (setShowEditModal false cur)))))) in
            (st', if onExpenseAdded props then notified w else w)
      end
  end.

(** [handleSkipExpense]: no request is made. *)
Definition handleSkipExpense (st : State) : State :=
  let nextIndex := editingExpenseIndex st + 1 in
  if nextIndex <? length (expensesToConfirm st) then moveTo nextIndex st
  else closeReview st.

(** [setTimeout(() => setMessage(''), 3000)] firing. *)
Definition clearMessage (st : State) : State := setMessage "" st.

(** [toggleExpenseSelection] *)
Definition toggleExpenseSelection (i : string) (st : State) : State :=
  if bool_decide (i ∈ selectedExpenses st)
  then setSelectedExpenses (selectedExpenses st ∖ {[ i ]}) st
  else setSelectedExpenses (selectedExpenses st ∪ {[ i ]}) st.

(** [handleImportExpenses], given how its [POST] ends: only the candidates
    with [!e.already_imported] are kept. *)
Definition handleImportExpenses (r : ImportResult) (st : State) : State :=
  let st := setMessage "" (setError "" st) in
  match r with
  | Imported (Some es) msg =>
      let newExpenses :=
        List.filter (fun e => negb (ImportedExpense.already_imported e)) es in
      let found :=
        "Found " +:+ pretty (length newExpenses) +:+ " new expenses to import. "
          +:+ pretty (length es - length newExpenses) +:+ " already imported." in
      setLoading false
        (setSelectedMonth ""
           (setEndDate ""
              (setStartDate ""
                 (setShowImportForm false
                    (setMessage (JS.opt_string_or msg found)
                       (setImportedExpenses newExpenses st))))))
  | Imported None msg =>
      setLoading false
        (setSelectedMonth ""
           (setEndDate ""
              (setStartDate ""
                 (setShowImportForm false
                    (setImportedExpenses []
                       (setMessage (JS.opt_string_or msg "No expenses found.") st))))))
  | ImportFailed detail =>
      setLoading false
        (setError (JS.opt_string_or detail "Failed to import expenses") st)
  end.

Section Filters.

(** Three built-ins of the language, left open: [String.prototype.toLowerCase],
    [String.prototype.includes], and the time value of [new Date(s)] (NaN
    for a string that is no date). *)
Variable toLowerCase : string -> string.
Variable includes : string -> string -> bool.
Variable dateValue : string -> float.

(** [applyFilters]: the list the page shows and the user selects from. *)
Definition applyFilters (st : State) : list ImportedExpense.t :=
  let filtered := importedExpenses st in
  let filtered :=
    if JS.truthy_string (searchQuery st) then
      List.filter (fun e => includes (toLowerCase (ImportedExpense.description e))
                                     (toLowerCase (searchQuery st))) filtered
    else filtered in
  let filtered :=
    if JS.truthy_string (filterCategory st) then
      List.filter (fun e => bool_decide (ImportedExpense.category e
                                         = Some (filterCategory st))) filtered
    else filtered in
  let filtered :=
    if JS.truthy_string (filterType st) then
      List.filter (fun e => bool_decide (ImportedExpense.expense_type e
                                         = Some (filterType st))) filtered
    else filtered in
  let filtered :=
    if JS.truthy_string (filterDateFrom st) then
      List.filter (fun e => (dateValue (filterDateFrom st)
                             <=? dateValue (ImportedExpense.date e))%float) filtered
    else filtered in
  let filtered :=
    if JS.truthy_string (filterDateTo st) then
      List.filter (fun e => (dateValue (ImportedExpense.date e)
                             <=? dateValue (filterDateTo st))%float) filtered
    else filtered in
  filtered.

(** [handleAddToExpenses]: the review starts on the shown candidates whose
    id is selected. *)
Definition handleAddToExpenses (st : State) : State :=
  if size (selectedExpenses st) =? 0 then
    setError "Please select at least one expense to add" st
  else
    let expensesToAdd :=
      List.filter (fun e => bool_decide (ImportedExpense.id e ∈ selectedExpenses st))
                  (applyFilters st) in
    setShowEditModal true
      (setEditingExpenseIndex 0
         (setEditingExpense (expensesToAdd !! 0)
            (setExpensesToConfirm expensesToAdd st))).

(** [selectAll] *)
Definition selectAll (st : State) : State :=
  if size (selectedExpenses st) =? length (applyFilters st) then
    setSelectedExpenses ∅ st
  else
    setSelectedExpenses
      (list_to_set (map ImportedExpense.id (applyFilters st))) st.

(** The "Clear Filters" button. *)
Definition clearFilters (st : State) : State :=
  setFilterDateTo ""
    (setFilterDateFrom ""
       (setFilterType "" (setFilterCategory "" (setSearchQuery "" st)))).

(** What the user, the timer and the endpoints can do to a mounted page:
    the inputs of the import form and of the filters, the buttons, and the
    responses to [fetchGroups], to the import and to a save. *)
Inductive Action :=
| GroupsFetched (gs : list Group.t)
| ToggleImportForm
| TypeStartDate (v : string)
| TypeEndDate (v : string)
| PickMonth (v : string)
| Import (r : ImportResult)
| TypeSearch (v : string)
| PickCategory (v : string)
| PickType (v : string)
| PickDateFrom (v : string)
| PickDateTo (v : string)
| ClearFilters
| Toggle (i : string)
| SelectAll
| AddToExpenses
| Change (ed : Edit)
| Save (r : PostResult)
| Skip
| CloseModal
| MessageTimeout.

Definition step (props : Props) (a : Action) (c : State * World) : State * World :=
  let (st, w) := c in
  match a with
  | GroupsFetched gs => (setGroups gs st, w)
  | ToggleImportForm => (setShowImportForm (negb (showImportForm st)) st, w)
  | TypeStartDate v => (setStartDate v st, w)
  | TypeEndDate v => (setEndDate v st, w)
  | PickMonth v => (setSelectedMonth v st, w)
  | Import r => (handleImportExpenses r st, w)
  | TypeSearch v => (setSearchQuery v st, w)
  | PickCategory v => (setFilterCategory v st, w)
  | PickType v => (setFilterType v st, w)
  | PickDateFrom v => (setFilterDateFrom v st, w)
  | PickDateTo v => (setFilterDateTo v st, w)
  | ClearFilters => (clearFilters st, w)
  | Toggle i => (toggleExpenseSelection i st, w)
  | SelectAll => (selectAll st, w)
  | AddToExpenses => (handleAddToExpenses st, w)
  | Change ed => (handleEdit ed st, w)
  | Save r => handleSaveExpense props r st w
  | Skip => (handleSkipExpense st, w)
  | CloseModal => (setShowEditModal false st, w)
  | MessageTimeout => (clearMessage st, w)
  end.

Definition run (props : Props) (acts : list Action) (c : State * World)
  : State * World :=
  fold_left (fun c a => step props a c) acts c.

End Filters.

(** ** The review session's states *)

(** The modal is open on candidate [i] of [N]. *)
Definition reviewingAt (i N : nat) (st : State) : Prop :=
  showEditModal st = true /\
  editingExpenseIndex st = i /\
  length (expensesToConfirm st) = N /\
  i < N /\
  is_Some (editingExpense st).

(** The modal is closed and the session's cells are back to their initial
    values. *)
Definition complete (st : State) : Prop :=
  showEditModal st = false /\
  expensesToConfirm st = [] /\
  editingExpense st = None /\
  editingExpenseIndex st = 0 /\
  selectedExpenses st = ∅.

(** The candidate's external id as the store receives it:
    [splitwise_id || id]. *)
Definition externalId (e : ImportedExpense.t) : string :=
  JS.opt_string_or (ImportedExpense.splitwise_id e) (ImportedExpense.id e).

(** No candidate of the list is flagged as imported before. *)
Definition notImported (l : list ImportedExpense.t) : Prop :=
  Forall (fun e => ImportedExpense.already_imported e = false) l.

End ImportPage.

(** ** ImportPage.tsx: saves in flight *)

Module Async.
Import ImportPage.

(** The page with its saves in flight: [now] is the state on screen,
    [pending] holds, oldest first, the state at the click of every save
    whose [POST] has not been answered yet. *)
Record Page := mkPage {
  now : State;
  pending : list State;
  world : World
}.

(** [Do a] is an action that is over before the next event, a save among
    them when its answer comes at once; [Click] presses the save button and
    leaves the [POST] in flight; [Answer k r] ends the [k]-th save in
    flight. *)
Inductive Event :=
| Do (a : Action)
| Click
| Answer (k : nat) (r : PostResult).

Definition isDo (e : Event) : bool :=
  match e with
  | Do _ => true
  | _ => false
  end.

(** No event comes between a save's click and its answer. *)
Definition settled (events : list Event) : bool := forallb isDo events.

(** The actions among the events. *)
Definition actions (events : list Event) : list Action :=
  omap (fun e => match e with Do a => Some a | _ => None end) events.

Section Machine.
Variable toLowerCase : string -> string.
Variable includes : string -> string -> bool.
Variable dateValue : string -> float.
Variable props : Props.

Definition step (e : Event) (p : Page) : Page :=
  match e with
  | Do a =>
      let c := ImportPage.step toLowerCase includes dateValue props a (now p, world p) in
      mkPage (fst c) (pending p) (snd c)
  | Click =>
      match editingExpense (now p) with
      | Some _ => mkPage (now p) (pending p ++ [now p]) (world p)
      | None => p
      end
  | Answer k r =>
      match pending p !! k with
      | Some snap =>
          let c := saveAnswer props r snap (now p) (world p) in
          mkPage (fst c) (delete k (pending p)) (snd c)
      | None => p
      end
  end.

Definition run (events : list Event) (p : Page) : Page :=
  fold_left (fun p e => step e p) events p.

End Machine.

(** The mounted page, nothing in flight. *)
Definition mounted (w : World) : Page := mkPage initial [] w.

(** The state holds no candidate flagged as imported before: not in the
    list, not under review, not in the modal. *)
Definition clean (st : State) : Prop :=
  notImported (importedExpenses st) /\
  notImported (expensesToConfirm st) /\
  forall c, editingExpense st = Some c -> ImportedExpense.already_imported c = false.

End Async.

(** ** Sample data *)

Module Samples.
Import ImportPage.

(** A candidate as the import endpoint lists it: an id that is also the
    provider's, a raw amount, a share. *)
Definition cand (i : string) (a : float) (o : option float) : ImportedExpense.t :=
  ImportedExpense.mk i ("expense " +:+ i) a "USD" "2024-03-05" None
                     (Some "borrowed") None None o (Some i) None None false.

(** Stand-ins for the three built-ins of [applyFilters]; the samples set no
    filter, so none of them is ever called. *)
Definition lower (s : string) : string := s.
Definition incl (s t : string) : bool := true.
Definition dateOf (s : string) : float := 0%float.

Definition world0 : World := mkWorld [] 0.

(** A page showing [cs], all of them selected, with the review started. *)
Definition reviewing (cs : list ImportedExpense.t) : State :=
  handleAddToExpenses lower incl dateOf
    (setSelectedExpenses (list_to_set (map ImportedExpense.id cs))
       (setImportedExpenses cs initial)).

Definition three : list ImportedExpense.t :=
  [cand "sw-1" 30%float (Some 12.5%float);
   cand "sw-2" 10%float (Some 10%float);
   cand "sw-3" 8%float (Some 4%float)].

End Samples.

(** ** A review, candidate by candidate *)

Module Review.
Import ImportPage.

(** What the user does with the current candidate: [true] presses the save
    button, and the store accepts; [false] presses "Skip". *)
Definition press (save : bool) : Action :=
  if save then Save Accepted else Skip.

(** The candidates of [cs] that the decisions [keep] save, in order. *)
Fixpoint saved (keep : list bool) (cs : list ImportedExpense.t)
  : list ImportedExpense.t :=
  match keep, cs with
  | k :: keep, c :: cs => if k then c :: saved keep cs else saved keep cs
  | _, _ => []
  end.

(** What every request body of the page satisfies: the amount is a number
    (not NaN), the share sent is that same amount, the paid share is a
    number, and the type is not empty. *)
Definition wellFormed (d : ExpenseData.t) : Prop :=
  PrimFloat.is_nan (ExpenseData.amount d) = false /\
  ExpenseData.owed_share d = ExpenseData.amount d /\
  PrimFloat.is_nan (ExpenseData.paid_share d) = false /\
  ExpenseData.expense_type d <> "".

Definition isAcceptedSave (a : Action) : bool :=
  match a with
  | Save Accepted => true
  | _ => false
  end.

(** The modal's header and body agree: a current candidate is the
    candidate at the current index, up to the user's edits, and without a
    current candidate no list is under review. *)
Definition consistent (st : State) : Prop :=
  match editingExpense st with
  | Some c =>
      exists c0, expensesToConfirm st !! editingExpenseIndex st = Some c0 /\
                 ImportedExpense.id c = ImportedExpense.id c0 /\
                 ImportedExpense.splitwise_id c = ImportedExpense.splitwise_id c0 /\
                 ImportedExpense.already_imported c
                 = ImportedExpense.already_imported c0
  | None => expensesToConfirm st = [] /\ editingExpenseIndex st = 0
  end.

(** The label of the modal's save button:
    [editingExpenseIndex < expensesToConfirm.length - 1
       ? 'Save & Next' : 'Save & Finish']. *)
Definition saveLabel (st : State) : string :=
  if (Z.of_nat (editingExpenseIndex st)
      <? Z.of_nat (length (expensesToConfirm st)) - 1)%Z
  then "Save & Next" else "Save & Finish".

End Review.

(** ** Navbar.tsx *)

Module Navbar.

(** [getActiveTab], on [location.pathname]. *)
Definition getActiveTab (path : string) : string :=
  if String.eqb path "/dashboard" || String.eqb path "/" then "dashboard"
  else if String.eqb path "/groups" then "groups"
  else if String.eqb path "/expenses" then "expenses"
  else if String.eqb path "/income" then "income"
  else if String.eqb path "/import" then "import"
  else if String.eqb path "/profile" then "profile"
  else "dashboard".

(** The six [<Link>]s of the menu: where each one leads, and the tab for
    which it is drawn [active]. *)
Definition links : list (string * string) :=
  [("/dashboard", "dashboard"); ("/groups", "groups"); ("/expenses", "expenses");
   ("/income", "income"); ("/import", "import"); ("/profile", "profile")].

(** The links drawn [active] on [path]. *)
Definition activeLinks (path : string) : list (string * string) :=
  List.filter (fun l => String.eqb (getActiveTab path) (snd l)) links.

End Navbar.

(** ** Dashboard.tsx: the page *)

Module DashboardPage.

(** [getActiveTab], the dashboard's own copy. *)
Definition getActiveTab (path : string) : string :=
  if String.eqb path "/dashboard" || String.eqb path "/" then "dashboard"
  else if String.eqb path "/groups" then "groups"
  else if String.eqb path "/expenses" then "expenses"
  else if String.eqb path "/income" then "income"
  else if String.eqb path "/import" then "import"
  else if String.eqb path "/profile" then "profile"
  else "dashboard".

(** The tabs that have a body, [{activeTab === '...' && (...)}], in the
    order of the page. *)
Definition bodies : list string :=
  ["dashboard"; "groups"; "expenses"; "income"; "profile"; "import"].

(** The bodies rendered on [path]. *)
Definition rendered (path : string) : list string :=
  List.filter (String.eqb (getActiveTab path)) bodies.

(** [interface Group] *)
Module Group.
Record t := mk {
  id : string;
  name : string;
  description : option string;
  color : option string;
  created_at : string;
  expense_count : option float
}.
End Group.

(** An element of [response.data.expenses]: the fields of [Expense] with an
    [id] that may be missing, and the two other ids [fetchExpenses] reads. *)
Module RawExpense.
Record t := mk {
  id : option string;
  _id : option string;
  splitwise_id : option string;
  description : string;
  amount : float;
  currency : string;
  date : string;
  category : option string;
  expense_type : option string;
  expense_title : option string;
  net_balance : option float;
  total_expense : option float;
  owed_share : option float;
  group_id : option string;
  group_name : option string
}.
End RawExpense.

(** The cells of the page that the handlers below read or write; the
    modals and their forms are left out. *)
Record State := mkState {
  expenses : list Dashboard.Expense.t;
  groups : list Group.t;
  income : list Dashboard.Income.t;
  draggedExpense : option Dashboard.Expense.t;
  expensesPage : float;
  expensesTotal : float;
  expensesTotalPages : float;
  loadingExpenses : bool
}.

(** [a || b] for two optional strings. *)
Definition opt_or (a b : option string) : option string :=
  match a with
  | Some s => if JS.truthy_string s then a else b
  | None => b
  end.

(** [{ ...expense, id: expense.id || expense._id || expense.splitwise_id
       || `expense-${Date.now()}-${Math.random()}` }]; [stamp] is the text
    of [`${Date.now()}-${Math.random()}`]. *)
Definition withId (stamp : string) (e : RawExpense.t) : Dashboard.Expense.t :=
  Dashboard.Expense.mk
    (JS.opt_string_or
       (opt_or (opt_or (RawExpense.id e) (RawExpense._id e)) (RawExpense.splitwise_id e))
       ("expense-" +:+ stamp))
    (RawExpense.description e) (RawExpense.amount e) (RawExpense.currency e)
    (RawExpense.date e) (RawExpense.category e) (RawExpense.expense_type e)
    (RawExpense.expense_title e) (RawExpense.net_balance e)
    (RawExpense.total_expense e) (RawExpense.owed_share e)
    (RawExpense.group_id e) (RawExpense.group_name e).

(** How [axios.get(`${API_URL}/expenses?page=...`)] ends. *)
Inductive ExpensesResult :=
| Fetched (expenses : option (list RawExpense.t)) (total total_pages : option float)
| FetchFailed.

(** [fetchExpenses(page)], given how its [GET] ends and the stamp made for
    each element of the response. *)
Definition fetchExpenses (page : float) (r : ExpensesResult) (stamp : nat -> string)
    (st : State) : State :=
  match r with
  | Fetched es total total_pages =>
      mkState (imap (fun k e => withId (stamp k) e) (default [] es))
              (groups st) (income st) (draggedExpense st)
              page (JS.opt_number_or total 0%float)
              (JS.opt_number_or total_pages 1%float) false
  | FetchFailed =>
      mkState (expenses st) (groups st) (income st) (draggedExpense st)
              (expensesPage st) (expensesTotal st) (expensesTotalPages st) false
  end.

(** [handleDragStart] *)
Definition handleDragStart (e : Dashboard.Expense.t) (st : State) : State :=
  mkState (expenses st) (groups st) (income st) (Some e)
          (expensesPage st) (expensesTotal st) (expensesTotalPages st)
          (loadingExpenses st).

(** [{ ...e, group_id: groupId,
       group_name: groups.find(g => g.id === groupId)?.name }] *)
Definition regroup (gs : list Group.t) (groupId : string) (e : Dashboard.Expense.t)
  : Dashboard.Expense.t :=
  Dashboard.Expense.mk
    (Dashboard.Expense.id e) (Dashboard.Expense.description e)
    (Dashboard.Expense.amount e) (Dashboard.Expense.currency e)
    (Dashboard.Expense.date e) (Dashboard.Expense.category e)
    (Dashboard.Expense.expense_type e) (Dashboard.Expense.expense_title e)
    (Dashboard.Expense.net_balance e) (Dashboard.Expense.total_expense e)
    (Dashboard.Expense.owed_share e)
    (Some groupId)
    (option_map Group.name
       (List.find (fun g => String.eqb (Group.id g) groupId) gs)).

(** [handleDrop] *)
Definition handleDrop (groupId : string) (st : State) : State :=
  match draggedExpense st with
  | Some dragged =>
      mkState
        (map (fun e => if String.eqb (Dashboard.Expense.id e)
                                     (Dashboard.Expense.id dragged)
                       then regroup (groups st) groupId e else e)
             (expenses st))
        (groups st) (income st) None
        (expensesPage st) (expensesTotal st) (expensesTotalPages st)
        (loadingExpenses st)
  | None => st
  end.

(** [{expense.owed_share !== undefined && expense.owed_share > 0 && (...)}]:
    the amount an expense card shows, if it shows one. *)
Definition shownAmount (e : Dashboard.Expense.t) : option float :=
  match Dashboard.Expense.owed_share e with
  | Some o => if (0 <? o)%float then Some o else None
  | None => None
  end.

End DashboardPage.

(** ** ImportPage.tsx: the options of the filter menus *)

Module FilterOptions.
Import ImportPage.

(** [.filter(Boolean)] on optional strings: the present, non-empty ones. *)
Definition truthy (l : list (option string)) : list string :=
  omap (fun o => match o with
                 | Some s => if JS.truthy_string s then Some s else None
                 | None => None
                 end) l.

(** [Array.from(new Set(l))]: every value once, at its first occurrence. *)
Fixpoint distinct (l : list string) : list string :=
  match l with
  | [] => []
  | x :: l => x :: List.filter (fun y => negb (String.eqb y x)) (distinct l)
  end.

(** [categories] *)
Definition categories (st : State) : list string :=
  distinct (truthy (map ImportedExpense.category (importedExpenses st))).

(** [expenseTypes] *)
Definition expenseTypes (st : State) : list string :=
  distinct (truthy (map ImportedExpense.expense_type (importedExpenses st))).

End FilterOptions.

(** ** More sample data *)

Module Samples2.

Definition raw (i : option string) (o : option float) : DashboardPage.RawExpense.t :=
  DashboardPage.RawExpense.mk i None None "item" 20%float "USD" "2024-02-01"
                              None None None None None o None None.

Definition stamps (k : nat) : string := "1700000000000-0." +:+ pretty k.

Definition page0 : DashboardPage.State :=
  DashboardPage.mkState [] [] [] None 1%float 0%float 1%float false.

Definition travel : DashboardPage.Group.t :=
  DashboardPage.Group.mk "g2" "Travel" None None "2024-01-01" None.

End Samples2.

(** * Properties *)

Import ImportPage.

(** ** JavaScript values *)

Lemma number_or_truthy x d : JS.truthy_number x = true -> JS.number_or x d = x.
Proof. unfold JS.number_or. now intros ->. Qed.

Lemma number_or_falsy x d : JS.truthy_number x = false -> JS.number_or x d = d.
Proof. unfold JS.number_or. now intros ->. Qed.

Lemma string_or_default_nonempty s d : d <> "" -> JS.string_or s d <> "".
Proof.
  intros Hd. unfold JS.string_or, JS.truthy_string.
  destruct (String.eqb_spec s "") as [E | N]; simpl; assumption.
Qed.

Lemma opt_string_or_default_nonempty s d : d <> "" -> JS.opt_string_or s d <> "".
Proof.
  destruct s as [v |]; simpl; [apply string_or_default_nonempty | trivial].
Qed.

(** ** The advancing handlers *)

Lemma moveTo_reviewingAt i N st :
  reviewingAt i N st -> i + 1 < N ->
  reviewingAt (i + 1) N (moveTo (i + 1) st) /\
  expensesToConfirm (moveTo (i + 1) st) = expensesToConfirm st /\
  editingExpense (moveTo (i + 1) st) = expensesToConfirm st !! (i + 1).
Proof.
  intros (Hm & Hi & HN & Hlt & Hc) Hnext.
  unfold reviewingAt, moveTo; cbn.
  repeat split; try assumption.
  apply lookup_lt_is_Some_2. lia.
Qed.

Lemma closeReview_complete st : complete (closeReview st).
Proof. unfold complete, closeReview; cbn. repeat split. Qed.

Lemma setMessage_complete m st : complete st -> complete (setMessage m st).
Proof. unfold complete; cbn. trivial. Qed.



Lemma string_or_cases s d : JS.string_or s d = if String.eqb s "" then d else s.
Proof.
  unfold JS.string_or, JS.truthy_string. now destruct (String.eqb s "").
Qed.

Lemma string_or_empty s : JS.string_or s "" = s.
Proof.
  rewrite string_or_cases. now destruct (String.eqb_spec s "") as [-> | _].
Qed.



(** The edits made so far are what is saved. *)
Lemma save_after_edits props st w c eds :
  editingExpense st = Some c ->
  let c' := fold_left (fun e ed => applyEdit ed e) eds c in
  let st1 := fold_left (fun s ed => handleEdit ed s) eds st in
  editingExpense st1 = Some c' /\
  posted (snd (handleSaveExpense props Accepted st1 w))
  = posted w ++ [expenseData (groups st) c'].
Proof.
  revert st c. induction eds as [| ed eds IH]; intros st c Hc; cbn.
  - split; [assumption |]. unfold handleSaveExpense. rewrite Hc.
    destruct (Nat.ltb _ _); [reflexivity |].
    destruct (onExpenseAdded props); reflexivity.
  - assert (Hst : editingExpense (handleEdit ed st) = Some (applyEdit ed c))
      by (unfold handleEdit; rewrite Hc; reflexivity).
    assert (Hg : groups (handleEdit ed st) = groups st)
      by (unfold handleEdit; rewrite Hc; reflexivity).
    destruct (IH _ _ Hst) as [H1 H2]. rewrite Hg in H2. split; assumption.
Qed.


Lemma setError_save_accepted props m st w :
  handleSaveExpense props Accepted (setError m st) w
  = (setError m (fst (handleSaveExpense props Accepted st w)),
     snd (handleSaveExpense props Accepted st w)).
Proof.
  unfold handleSaveExpense.
  change (editingExpense (setError m st)) with (editingExpense st).
  destruct (editingExpense st) as [e |]; [| reflexivity].
  change (editingExpenseIndex (setError m st)) with (editingExpenseIndex st).
  change (expensesToConfirm (setError m st)) with (expensesToConfirm st).
  destruct (editingExpenseIndex st + 1 <? length (expensesToConfirm st));
    reflexivity.
Qed.

(** C3. When the store rejects the save at candidate [i] of [N], the store
    is left as it was, the page's [error] is set to the rejection's detail
    or to "Failed to save expense" (never empty), and nothing else in the
    state changes: the session still stands at candidate [i] of the same
    list with the same, edited, current candidate.  Saving again, accepted
    this time, does exactly what it would have done without the failure,
    the [error] text apart. *)
Theorem rejected_save_stays props st w i N d :
  reviewingAt i N st ->
  let st' := fst (handleSaveExpense props (Rejected d) st w) in
  let w' := snd (handleSaveExpense props (Rejected d) st w) in
  w' = w /\
  st' = setError (JS.opt_string_or d "Failed to save expense") st /\
  error st' <> "" /\
  reviewingAt i N st' /\
  expensesToConfirm st' = expensesToConfirm st /\
  editingExpense st' = editingExpense st /\
  handleSaveExpense props Accepted st' w'
  = (setError (error st') (fst (handleSaveExpense props Accepted st w)),
     snd (handleSaveExpense props Accepted st w)).
Proof.
  intros Hrev st' w'. pose proof Hrev as (Hm & Hi & HN & Hlt & [c Hc]).
  assert (Hst : st' = setError (JS.opt_string_or d "Failed to save expense") st)
    by (unfold st', handleSaveExpense; rewrite Hc; reflexivity).
  assert (Hw : w' = w)
    by (unfold w', handleSaveExpense; rewrite Hc; reflexivity).
  rewrite Hst, Hw. repeat split; try assumption.
  - cbn. now apply opt_string_or_default_nonempty.
  - cbn. rewrite Hc. now eexists.
  - apply setError_save_accepted.
Qed.

Lemma rejected_save_stays_witness :
  let st := fst (handleSaveExpense dashboardProps Accepted
                   (Samples.reviewing Samples.three) Samples.world0) in
  let w := snd (handleSaveExpense dashboardProps Accepted
                  (Samples.reviewing Samples.three) Samples.world0) in
  let st' := fst (handleSaveExpense dashboardProps (Rejected None) st w) in
  let w' := snd (handleSaveExpense dashboardProps (Rejected None) st w) in
  w' = w /\
  st' = setError (JS.opt_string_or None "Failed to save expense") st /\
  error st' <> "" /\
  reviewingAt 1 3 st' /\
  expensesToConfirm st' = expensesToConfirm st /\
  editingExpense st' = editingExpense st /\
  handleSaveExpense dashboardProps Accepted st' w'
  = (setError (error st') (fst (handleSaveExpense dashboardProps Accepted st w)),
     snd (handleSaveExpense dashboardProps Accepted st w)).
Proof.
  apply (rejected_save_stays dashboardProps
           (fst (handleSaveExpense dashboardProps Accepted
                   (Samples.reviewing Samples.three) Samples.world0))
           (snd (handleSaveExpense dashboardProps Accepted
                   (Samples.reviewing Samples.three) Samples.world0))
           1 3 None).
  repeat split; [lia | eexists; vm_compute; reflexivity].
Defined.

(** C6. A skip at candidate [i] of [N] leaves the world as it was, so the
    stored expenses are exactly those from before, and moves the session as
    an accepted save does: to candidate [i+1] when [i+1 < N], where the two
    handlers yield the same state, and to the complete session when
    [i+1 = N], where the save's state differs only by its success
    message. *)
Theorem skip_persists_nothing lc inc dv props st w i N :
  reviewingAt i N st ->
  let c' := step lc inc dv props Skip (st, w) in
  let saved := fst (handleSaveExpense props Accepted st w) in
  snd c' = w /\
  posted (snd c') = posted w /\
  (i + 1 < N -> reviewingAt (i + 1) N (fst c') /\ fst c' = saved) /\
  (i + 1 = N -> complete (fst c') /\ saved = setMessage (message saved) (fst c')).
Proof.
  intros Hrev. pose proof Hrev as (Hm & Hi & HN & Hlt & [c Hc]).
  cbn [step fst snd]. unfold handleSaveExpense, handleSkipExpense.
  rewrite Hc, Hi, HN.
  destruct (Nat.ltb_spec (i + 1) N) as [Hnext | Hlast]; cbn [fst snd].
  - split; [reflexivity | split; [reflexivity | split; [intros _ | lia]]].
    split; [now apply moveTo_reviewingAt | reflexivity].
  - split; [reflexivity | split; [reflexivity | split; [lia | intros _]]].
    split; [apply closeReview_complete | reflexivity].
Qed.

Lemma skip_persists_nothing_witness :
  let st := Samples.reviewing Samples.three in
  let c' := step Samples.lower Samples.incl Samples.dateOf dashboardProps Skip
                 (st, Samples.world0) in
  let saved := fst (handleSaveExpense dashboardProps Accepted st Samples.world0) in
  snd c' = Samples.world0 /\
  posted (snd c') = posted Samples.world0 /\
  (0 + 1 < 3 -> reviewingAt (0 + 1) 3 (fst c') /\ fst c' = saved) /\
  (0 + 1 = 3 -> complete (fst c') /\ saved = setMessage (message saved) (fst c')).
Proof.
  apply (skip_persists_nothing Samples.lower Samples.incl Samples.dateOf
           dashboardProps (Samples.reviewing Samples.three) Samples.world0 0 3).
  repeat split; [lia | eexists; vm_compute; reflexivity].
Defined.

(** ** The refresh notification *)

Lemma save_on_last_candidate_notifies props st w i N c :
  reviewingAt i N st -> i + 1 = N -> editingExpense st = Some c ->
  refreshes (snd (handleSaveExpense props Accepted st w))
  = if onExpenseAdded props then S (refreshes w) else refreshes w.
Proof.
  intros (Hm & Hi & HN & Hlt & _) Hlast Hc.
  unfold handleSaveExpense. rewrite Hc, Hi, HN.
  destruct (Nat.ltb_spec (i + 1) N) as [Hnext | _]; [lia |].
  cbn. destruct (onExpenseAdded props); reflexivity.
Qed.

Lemma skip_never_notifies lc inc dv props st w :
  snd (step lc inc dv props Skip (st, w)) = w.
Proof. reflexivity. Qed.

(** C7. Two candidates under review on the dashboard's page.  Saving the
    first and skipping the second completes the session with one expense
    stored and no call of [onExpenseAdded]; skipping the first and saving
    the second completes it with one call. *)
Theorem skip_on_last_candidate_sends_no_refresh :
  let start := (Samples.reviewing (firstn 2 Samples.three), Samples.world0) in
  let run := run Samples.lower Samples.incl Samples.dateOf dashboardProps in
  let skipped_last := run [Save Accepted; Skip] start in
  let saved_last := run [Skip; Save Accepted] start in
  reviewingAt 0 2 (fst start) /\
  complete (fst skipped_last) /\
  length (posted (snd skipped_last)) = 1 /\
  refreshes (snd skipped_last) = 0 /\
  complete (fst saved_last) /\
  length (posted (snd saved_last)) = 1 /\
  refreshes (snd saved_last) = 1.
Proof.
  cbv zeta. split; [| vm_compute; repeat split].
  repeat split; [lia | eexists; vm_compute; reflexivity].
Qed.

(** ** What a save sends *)

(** C4. A candidate whose [owed_share] is present and 0 and whose raw
    amount is 7 is saved with amount 7, not 0: [expenseData] reads the
    share with [||], which takes the 0 for a missing share. *)
Lemma zero_share_saved_with_raw_amount :
  let c := Samples.cand "sw-2" 7%float (Some 0%float) in
  ImportedExpense.owed_share c = Some 0%float /\
  ExpenseData.amount (expenseData [] c) = 7%float /\
  ExpenseData.amount (expenseData [] c) <> 0%float.
Proof. vm_compute. repeat split. discriminate. Qed.

(** What [expenseData] computes for the amount, case by case:
    [owed_share || amount || 0] is the candidate's [owed_share] when that is
    present and truthy (neither 0 nor NaN); otherwise, whether [owed_share]
    is absent, 0 or NaN, the raw [amount] when that is truthy, and 0 when
    it is not.  The saved [owed_share] is the same number. *)
Theorem saved_amount_first_truthy gs c :
  let d := expenseData gs c in
  (forall o, ImportedExpense.owed_share c = Some o ->
             JS.truthy_number o = true -> ExpenseData.amount d = o) /\
  (forall o, ImportedExpense.owed_share c = Some o ->
             JS.truthy_number o = false ->
             ExpenseData.amount d = JS.number_or (ImportedExpense.amount c) 0%float) /\
  (ImportedExpense.owed_share c = None ->
   ExpenseData.amount d = JS.number_or (ImportedExpense.amount c) 0%float) /\
  ExpenseData.owed_share d = ExpenseData.amount d.
Proof.
  cbn. repeat split.
  - intros o -> Ho. cbn. rewrite (number_or_truthy o _ Ho).
    now apply number_or_truthy.
  - intros o -> Ho. cbn. now rewrite (number_or_falsy o _ Ho).
  - now intros ->.
Qed.

Lemma saved_amount_first_truthy_witness :
  ExpenseData.amount (expenseData [] (Samples.cand "sw-1" 30 (Some 12.5))%float)
  = 12.5%float /\
  ExpenseData.amount (expenseData [] (Samples.cand "sw-2" 7 (Some 0))%float)
  = JS.number_or 7%float 0%float /\
  ExpenseData.amount (expenseData [] (Samples.cand "sw-4" 9 None)%float)
  = JS.number_or 9%float 0%float.
Proof.
  split; [| split].
  - exact (proj1 (saved_amount_first_truthy [] (Samples.cand "sw-1" 30 (Some 12.5))%float)
             12.5%float eq_refl eq_refl).
  - exact (proj1 (proj2 (saved_amount_first_truthy []
                           (Samples.cand "sw-2" 7 (Some 0))%float))
             0%float eq_refl eq_refl).
  - exact (proj1 (proj2 (proj2 (saved_amount_first_truthy []
                                  (Samples.cand "sw-4" 9 None)%float)))
             eq_refl).
Defined.

Lemma applyEdit_keeps_ids ed e :
  ImportedExpense.id (applyEdit ed e) = ImportedExpense.id e /\
  ImportedExpense.splitwise_id (applyEdit ed e) = ImportedExpense.splitwise_id e.
Proof. destruct e, ed; split; reflexivity. Qed.

Lemma edits_keep_ids eds e :
  let e' := fold_left (fun e ed => applyEdit ed e) eds e in
  ImportedExpense.id e' = ImportedExpense.id e /\
  ImportedExpense.splitwise_id e' = ImportedExpense.splitwise_id e.
Proof.
  revert e. induction eds as [| ed eds IH]; intros e; cbn; [now split |].
  destruct (IH (applyEdit ed e)) as [H1 H2].
  destruct (applyEdit_keeps_ids ed e) as [H3 H4].
  split; congruence.
Qed.

(** C5. Whatever inputs of the modal the user changes, and in whatever
    order, the current candidate keeps its [id] and its [splitwise_id], and
    an accepted save then stores an expense whose [splitwise_id] is the
    external id ([splitwise_id || id]) the candidate had before the first
    edit. *)
Theorem edits_never_change_external_id props st w c eds :
  editingExpense st = Some c ->
  let c' := fold_left (fun e ed => applyEdit ed e) eds c in
  let st1 := fold_left (fun s ed => handleEdit ed s) eds st in
  editingExpense st1 = Some c' /\
  ImportedExpense.id c' = ImportedExpense.id c /\
  ImportedExpense.splitwise_id c' = ImportedExpense.splitwise_id c /\
  posted (snd (handleSaveExpense props Accepted st1 w))
  = posted w ++ [expenseData (groups st) c'] /\
  ExpenseData.splitwise_id (expenseData (groups st) c') = externalId c.
Proof.
  intros Hc c' st1.
  destruct (save_after_edits props st w c eds Hc) as [H1 H2].
  destruct (edits_keep_ids eds c) as [H3 H4].
  repeat split; try assumption.
  change (ExpenseData.splitwise_id (expenseData (groups st) c'))
    with (JS.opt_string_or (ImportedExpense.splitwise_id c') (ImportedExpense.id c')).
  unfold externalId, c'. now rewrite H3, H4.
Qed.

Lemma edits_never_change_external_id_witness :
  let eds := [EditAmount 15%float; EditDescription "dinner"; EditGroup "g1";
              EditCategory "food"; EditDate "2024-03-06"; EditCurrency "EUR"] in
  let st := Samples.reviewing Samples.three in
  let c := Samples.cand "sw-1" 30%float (Some 12.5%float) in
  let c' := fold_left (fun e ed => applyEdit ed e) eds c in
  let st1 := fold_left (fun s ed => handleEdit ed s) eds st in
  editingExpense st1 = Some c' /\
  ImportedExpense.id c' = ImportedExpense.id c /\
  ImportedExpense.splitwise_id c' = ImportedExpense.splitwise_id c /\
  posted (snd (handleSaveExpense dashboardProps Accepted st1 Samples.world0))
  = posted Samples.world0 ++ [expenseData (groups st) c'] /\
  ExpenseData.splitwise_id (expenseData (groups st) c') = externalId c.
Proof.
  apply (edits_never_change_external_id dashboardProps
           (Samples.reviewing Samples.three) Samples.world0
           (Samples.cand "sw-1" 30%float (Some 12.5%float))).
  vm_compute. reflexivity.
Defined.

(** ** The candidates on show *)

Lemma notImported_filter f l : notImported l -> notImported (List.filter f l).
Proof.
  unfold notImported. rewrite !List.Forall_forall. intros H e He.
  apply List.filter_In in He. now apply H.
Qed.

Lemma filter_not_already_imported es :
  notImported (List.filter (fun e => negb (ImportedExpense.already_imported e)) es).
Proof.
  unfold notImported. rewrite List.Forall_forall. intros e He.
  apply List.filter_In in He. destruct He as [_ He].
  now apply negb_true_iff in He.
Qed.

Section Shown.
Variable toLowerCase : string -> string.
Variable includes : string -> string -> bool.
Variable dateValue : string -> float.

Lemma applyFilters_incl st e :
  In e (applyFilters toLowerCase includes dateValue st) -> In e (importedExpenses st).
Proof.
  unfold applyFilters.
  repeat match goal with
         | |- context [if ?b then _ else _] => destruct b
         end;
    intros H; repeat (apply List.filter_In in H; destruct H as [H _]); exact H.
Qed.

Lemma applyFilters_notImported st :
  notImported (importedExpenses st) ->
  notImported (applyFilters toLowerCase includes dateValue st).
Proof.
  unfold notImported. rewrite !List.Forall_forall. intros H e He.
  apply H. now apply applyFilters_incl.
Qed.

Lemma handleImportExpenses_notImported r st :
  notImported (importedExpenses st) ->
  notImported (importedExpenses (handleImportExpenses r st)).
Proof.
  intros H. destruct r as [[es |] msg | detail]; cbn.
  - apply filter_not_already_imported.
  - constructor.
  - exact H.
Qed.

Lemma step_notImported props a c :
  notImported (importedExpenses (fst c)) ->
  notImported (importedExpenses (fst (step toLowerCase includes dateValue props a c))).
Proof.
  destruct c as [st w]. intros H. cbn [fst] in H.
  destruct a; cbn [step fst]; try exact H.
  - now apply handleImportExpenses_notImported.
  - unfold toggleExpenseSelection. now destruct (bool_decide _).
  - unfold selectAll. now destruct (Nat.eqb _ _).
  - unfold handleAddToExpenses. now destruct (Nat.eqb _ _).
  - unfold handleEdit. now destruct (editingExpense st).
  - unfold handleSaveExpense. destruct (editingExpense st); [| exact H].
    destruct r; [| exact H]. destruct (Nat.ltb _ _); [exact H |].
    cbn. now apply notImported_filter.
  - unfold handleSkipExpense. destruct (Nat.ltb _ _); [exact H |].
    cbn. now apply notImported_filter.
Qed.

Lemma run_notImported props acts c :
  notImported (importedExpenses (fst c)) ->
  notImported (importedExpenses (fst (run toLowerCase includes dateValue props acts c))).
Proof.
  revert c. induction acts as [| a acts IH]; intros c H; cbn; [exact H |].
  apply IH. now apply step_notImported.
Qed.

End Shown.

(** C10. Whatever the import endpoint returns, the list the page shows
    after the fetch holds only candidates with [already_imported = false],
    each of them one of the returned candidates; and the same holds of the
    list shown in every state the page can reach from its mount, through
    any sequence of fetches (failed ones too), filter changes, selections,
    reviews, edits, saves and skips. *)
Theorem shown_candidates_not_already_imported lc inc dv :
  (forall es msg st,
      let shown := applyFilters lc inc dv (handleImportExpenses (Imported (Some es) msg) st) in
      notImported shown /\ Forall (fun e => In e es) shown) /\
  (forall props acts w,
      notImported (applyFilters lc inc dv (fst (run lc inc dv props acts (initial, w))))).
Proof.
  split.
  - intros es msg st shown. split.
    + apply applyFilters_notImported. cbn. apply filter_not_already_imported.
    + rewrite List.Forall_forall. intros e He. apply applyFilters_incl in He.
      cbn in He. apply List.filter_In in He. tauto.
  - intros props acts w. apply applyFilters_notImported, run_notImported.
    constructor.
Qed.

(** ** The dashboard's figures *)

Import Dashboard.

Lemma youOwe_fold expenses acc :
  fold_left (fun sum e => (sum + JS.opt_number_or (Expense.owed_share e) 0)%float)
            expenses acc
  = fold_left PrimFloat.add (map contribution expenses) acc.
Proof.
  revert acc. induction expenses as [| e es IH]; intros acc; cbn; [reflexivity |].
  apply IH.
Qed.

Lemma totalIncome_fold income acc :
  fold_left (fun sum i => (sum + JS.number_or (Income.amount i) 0)%float) income acc
  = fold_left PrimFloat.add
              (map (fun i => JS.number_or (Income.amount i) 0%float) income) acc.
Proof.
  revert acc. induction income as [| i rest IH]; intros acc; cbn; [reflexivity |].
  apply IH.
Qed.

(** [youOwe] reads nothing of an expense but its [owed_share]. *)
Lemma youOwe_reads_owed_share_only expenses expenses' :
  map Expense.owed_share expenses = map Expense.owed_share expenses' ->
  youOwe expenses = youOwe expenses'.
Proof.
  intros H. unfold youOwe. rewrite !youOwe_fold. f_equal.
  unfold contribution.
  rewrite <- (map_map Expense.owed_share (fun o => JS.opt_number_or o 0%float) expenses).
  rewrite <- (map_map Expense.owed_share (fun o => JS.opt_number_or o 0%float) expenses').
  now rewrite H.
Qed.

(** C1, as the claim states it, fails: an expense with no [owed_share] and
    amount 5 adds nothing to [youOwe], where the claim's sum is 5. *)
Lemma youOwe_skips_amount :
  let e := sample "e-1" 5%float None (Some "personal") in
  youOwe [e] = 0%float /\ spec_totalOwed [e] = 5%float /\
  youOwe [e] <> spec_totalOwed [e].
Proof. vm_compute. repeat split. discriminate. Qed.

(** C1, amended.  The total owed is the left-to-right sum, from 0, of one
    number per expense: its [owed_share] when that is present and truthy
    (neither 0 nor NaN), and 0 otherwise; an expense's [amount] is never
    read.  The [expense_type] plays no part: rewriting the types of the
    expenses in any way leaves the total as it is. *)
Theorem youOwe_sums_owed_share_or_zero (expenses : list Expense.t) :
  youOwe expenses = fold_left PrimFloat.add (map contribution expenses) 0%float /\
  Forall (fun e => contribution e
                   = match Expense.owed_share e with
                     | Some o => if JS.truthy_number o then o else 0%float
                     | None => 0%float
                     end) expenses /\
  (forall retype : Expense.t -> option string,
      youOwe (map (fun e => with_expense_type (retype e) e) expenses)
      = youOwe expenses) /\
  (forall reprice : Expense.t -> float,
      youOwe (map (fun e => Expense.mk (Expense.id e) (Expense.description e)
                              (reprice e) (Expense.currency e) (Expense.date e)
                              (Expense.category e) (Expense.expense_type e)
                              (Expense.expense_title e) (Expense.net_balance e)
                              (Expense.total_expense e) (Expense.owed_share e)
                              (Expense.group_id e) (Expense.group_name e))
                  expenses)
      = youOwe expenses).
Proof.
  split; [apply youOwe_fold |].
  split; [apply List.Forall_forall; intros e _; reflexivity |].
  split; intros f; apply youOwe_reads_owed_share_only;
    rewrite map_map; reflexivity.
Qed.

(** C8. The net balance is the floating-point difference of the two totals
    it is shown with, whatever the lists; on empty lists all three figures
    are 0. *)
Theorem netBalance_is_income_minus_owed income expenses :
  netBalance income expenses = (totalIncome income - youOwe expenses)%float /\
  totalIncome [] = 0%float /\
  youOwe [] = 0%float /\
  netBalance [] [] = 0%float.
Proof. repeat split. Qed.

(** ** Whole numbers as doubles

    The sum of two whole numbers, neither negative, is computed exactly as
    long as it stays below [2^53]: the mantissas are aligned, added as
    integers, and the 53 leading bits that rounding keeps are all the bits
    there are. *)

Import Binary64.

Section WholeNumbers.
Local Open Scope Z_scope.

Lemma digits2_bounds p :
  2 ^ (Zpos (digits2_pos p) - 1) <= Zpos p < 2 ^ Zpos (digits2_pos p).
Proof.
  induction p as [p IH | p IH |]; cbn [digits2_pos].
  - rewrite Pos2Z.inj_succ.
    replace (Z.succ (Zpos (digits2_pos p)) - 1) with (Z.succ (Zpos (digits2_pos p) - 1)) by lia.
    rewrite !Z.pow_succ_r by lia. lia.
  - rewrite Pos2Z.inj_succ.
    replace (Z.succ (Zpos (digits2_pos p)) - 1) with (Z.succ (Zpos (digits2_pos p) - 1)) by lia.
    rewrite !Z.pow_succ_r by lia. lia.
  - cbn. lia.
Qed.

Lemma digits2_unique p d :
  2 ^ (d - 1) <= Zpos p < 2 ^ d -> Zpos (digits2_pos p) = d.
Proof.
  intros [Hlo Hhi]. pose proof (digits2_bounds p) as [Blo Bhi].
  assert (0 < d).
  { destruct (Z.ltb_spec 0 d); [assumption |].
    assert (2 ^ d <= 2 ^ 0) by (apply Z.pow_le_mono_r; lia). cbn in *; lia. }
  destruct (Z.lt_trichotomy (Zpos (digits2_pos p)) d) as [Hlt | [Heq | Hgt]]; [| exact Heq |].
  - assert (2 ^ Zpos (digits2_pos p) <= 2 ^ (d - 1)) by (apply Z.pow_le_mono_r; lia). lia.
  - assert (2 ^ d <= 2 ^ (Zpos (digits2_pos p) - 1)) by (apply Z.pow_le_mono_r; lia). lia.
Qed.

Lemma digits2_shift p q k :
  0 <= k -> Zpos q = Zpos p * 2 ^ k ->
  Zpos (digits2_pos q) = Zpos (digits2_pos p) + k.
Proof.
  intros Hk Hq. apply digits2_unique. rewrite Hq.
  pose proof (digits2_bounds p) as [Blo Bhi].
  replace (Zpos (digits2_pos p) + k - 1) with ((Zpos (digits2_pos p) - 1) + k) by lia.
  rewrite !Z.pow_add_r by lia.
  assert (0 < 2 ^ k) by (apply Z.pow_pos_nonneg; lia).
  split; nia.
Qed.

Lemma iter_xO_value p t : Zpos (Pos.iter xO p t) = Zpos p * 2 ^ Zpos t.
Proof.
  induction t as [| t IH] using Pos.peano_ind.
  - cbn. lia.
  - rewrite Pos.iter_succ, Pos2Z.inj_succ, Z.pow_succ_r by lia.
    rewrite Pos2Z.inj_xO, IH. lia.
Qed.

Lemma iter_pos_iter {A} (f : A -> A) p x : SpecFloat.iter_pos f p x = Pos.iter f x p.
Proof.
  revert x. induction p as [p IH | p IH |]; intros x; cbn.
  - rewrite !IH. now rewrite <- !Pos.iter_swap.
  - now rewrite !IH.
  - reflexivity.
Qed.

(** Shifting right the bits that a left shift put in loses nothing. *)
Lemma shr_iter_xO t q :
  SpecFloat.iter_pos shr_1 t (Build_shr_record (Zpos (Pos.iter xO q t)) false false)
  = Build_shr_record (Zpos q) false false.
Proof.
  rewrite iter_pos_iter. revert q.
  induction t as [| t IH] using Pos.peano_ind; intros q.
  - reflexivity.
  - rewrite Pos.iter_succ_r. rewrite (Pos.iter_succ _ _ xO). cbn [shr_1 orb].
    apply IH.
Qed.

Lemma shiftp_value p k : 0 <= k -> Zpos (shiftp p k) = Zpos p * 2 ^ k.
Proof.
  destruct k as [| t | t]; intros Hk; cbn [shiftp]; [cbn; lia | | lia].
  apply iter_xO_value.
Qed.

Lemma shl_align_le m e e' : e' <= e -> shl_align m e e' = (shiftp m (e - e'), e').
Proof.
  intros H. unfold shl_align.
  destruct (e' - e) as [| t | t] eqn:E; try lia.
  - replace (e - e') with 0 by lia. cbn. f_equal. lia.
  - replace (e - e') with (Zpos t) by lia. reflexivity.
Qed.

Lemma shl_align_ge m e e' : e <= e' -> shl_align m e e' = (m, e).
Proof.
  intros H. unfold shl_align.
  destruct (e' - e) as [| t | t] eqn:E; try lia; reflexivity.
Qed.

Lemma fexp_normal e : -1021 <= e -> fexp prec emax e = e - 53.
Proof. intros H. unfold fexp, SpecFloat.emin, prec, emax. lia. Qed.

Lemma round_aux_normal m e q e' :
  shr_fexp prec emax (Zpos m) e loc_Exact = (Build_shr_record (Zpos q) false false, e') ->
  Zpos (digits2_pos q) = 53 -> -1074 <= e' <= 971 ->
  binary_round_aux prec emax false (Zpos m) e loc_Exact = S754_finite false q e'.
Proof.
  intros Hshr Hq He. unfold binary_round_aux. rewrite Hshr.
  cbn [shr_m loc_of_shr_record round_nearest_even].
  unfold shr_fexp. cbn [Zdigits2]. rewrite Hq, fexp_normal by lia.
  replace (53 + e' - 53 - e') with 0 by lia. cbn [shr shr_record_of_loc shr_m].
  replace (e' <=? emax - prec) with true; [reflexivity |].
  symmetry. apply Z.leb_le. unfold emax, prec. lia.
Qed.

Lemma binary_round_whole (P v : positive) k :
  0 <= k -> Zpos P = Zpos v * 2 ^ k -> Zpos v < 2 ^ 53 ->
  binary_round prec emax false P (- k) = canon v.
Proof.
  intros Hk HP Hv.
  pose proof (digits2_bounds v) as [Blo Bhi].
  assert (Hd : 1 <= Zpos (digits2_pos v) <= 53).
  { split; [lia |]. destruct (Z.leb_spec (Zpos (digits2_pos v)) 53); [assumption |].
    assert (2 ^ 53 <= 2 ^ (Zpos (digits2_pos v) - 1)) by (apply Z.pow_le_mono_r; lia). lia. }
  pose proof (digits2_shift v P k Hk HP) as HD.
  set (d := Zpos (digits2_pos v)) in *.
  assert (Hq : Zpos (digits2_pos (shiftp v (53 - d))) = 53).
  { rewrite (digits2_shift v _ (53 - d)); [fold d; lia | lia |].
    apply shiftp_value. lia. }
  unfold binary_round, canon. fold d. rewrite HD, fexp_normal by lia.
  replace (d + k + - k - 53) with (d - 53) by lia.
  destruct (Z.leb_spec (d - 53) (- k)) as [Hle | Hgt].
  - rewrite shl_align_le by lia.
    assert (E : shiftp P (- k - (d - 53)) = shiftp v (53 - d)).
    { apply Pos2Z.inj. rewrite !shiftp_value by lia. rewrite HP.
      rewrite <- Z.mul_assoc, <- Z.pow_add_r by lia. do 2 f_equal. lia. }
    rewrite E. apply round_aux_normal; [| exact Hq | lia].
    unfold shr_fexp. cbn [Zdigits2]. rewrite Hq, fexp_normal by lia.
    replace (53 + (d - 53) - 53 - (d - 53)) with 0 by lia. reflexivity.
  - rewrite shl_align_ge by lia.
    apply round_aux_normal; [| exact Hq | lia].
    unfold shr_fexp. cbn [Zdigits2]. rewrite HD, fexp_normal by lia.
    destruct (d + k + - k - 53 - - k) as [| t | t] eqn:Et; try lia.
    cbn [shr shr_record_of_loc].
    assert (E : P = Pos.iter xO (shiftp v (53 - d)) t).
    { apply Pos2Z.inj. rewrite iter_xO_value, shiftp_value, HP by lia.
      rewrite <- Z.mul_assoc, <- Z.pow_add_r by lia. do 2 f_equal. lia. }
    rewrite E at 1. rewrite shr_iter_xO. f_equal. lia.
Qed.

Lemma Prim2SF_whole n : 0 <= n < 2 ^ 53 -> Prim2SF (JS.whole n) = wholeSF n.
Proof.
  intros Hn. unfold JS.whole. rewrite FloatAxioms.of_uint63_spec, Uint63.of_Z_spec.
  rewrite Z.mod_small by (change Uint63.wB with (2 ^ 63); lia).
  destruct n as [| v | v]; [reflexivity | | lia].
  cbn [binary_normalize wholeSF].
  apply (binary_round_whole v v 0); [lia | cbn; lia | lia].
Qed.

Lemma SFadd_canon a b :
  Zpos a + Zpos b < 2 ^ 53 ->
  SFadd prec emax (canon a) (canon b) = canon (a + b).
Proof.
  intros Hab.
  pose proof (digits2_bounds a) as [Alo Ahi].
  pose proof (digits2_bounds b) as [Blo Bhi].
  assert (Ha : Zpos (digits2_pos a) <= 53).
  { destruct (Z.leb_spec (Zpos (digits2_pos a)) 53); [assumption |].
    assert (2 ^ 53 <= 2 ^ (Zpos (digits2_pos a) - 1)) by (apply Z.pow_le_mono_r; lia). lia. }
  assert (Hb : Zpos (digits2_pos b) <= 53).
  { destruct (Z.leb_spec (Zpos (digits2_pos b)) 53); [assumption |].
    assert (2 ^ 53 <= 2 ^ (Zpos (digits2_pos b) - 1)) by (apply Z.pow_le_mono_r; lia). lia. }
  unfold canon at 1 2. cbn [SFadd cond_Zopp].
  set (da := Zpos (digits2_pos a)) in *. set (db := Zpos (digits2_pos b)) in *.
  set (ez := Z.min (da - 53) (db - 53)).
  rewrite !shl_align_le by (unfold ez; lia). cbn [fst Z.add binary_normalize].
  replace ez with (- (- ez)) at 3 by lia.
  apply binary_round_whole; [unfold ez; lia | | lia].
  rewrite Pos2Z.inj_add, !shiftp_value by (unfold ez; lia).
  rewrite <- !Z.mul_assoc, <- !Z.pow_add_r by (unfold ez; lia).
  replace (53 - da + (da - 53 - ez)) with (- ez) by lia.
  replace (53 - db + (db - 53 - ez)) with (- ez) by lia.
  lia.
Qed.

(** Adding two whole numbers whose sum is below [2^53] rounds nothing. *)
Lemma add_whole a b :
  0 <= a -> 0 <= b -> a + b < 2 ^ 53 ->
  (JS.whole a + JS.whole b)%float = JS.whole (a + b).
Proof.
  intros Ha Hb Hab. apply Prim2SF_inj.
  rewrite FloatAxioms.add_spec, !Prim2SF_whole by lia. unfold SF64add.
  destruct a as [| a | a], b as [| b | b]; try lia; try reflexivity.
  apply SFadd_canon. lia.
Qed.

Lemma SFeqb_canon_refl v : SFeqb (canon v) (canon v) = true.
Proof.
  unfold SFeqb, canon. cbn [SFcompare].
  now rewrite Z.compare_refl, Pos.compare_cont_refl.
Qed.

Lemma whole_truthy_or_zero n :
  0 <= n < 2 ^ 53 -> JS.number_or (JS.whole n) 0%float = JS.whole n.
Proof.
  intros Hn. destruct n as [| v | v]; [reflexivity | | lia].
  apply number_or_truthy. unfold JS.truthy_number, is_zero, is_nan.
  rewrite !FloatAxioms.eqb_spec, Prim2SF_whole by lia. cbn [wholeSF].
  rewrite SFeqb_canon_refl. reflexivity.
Qed.

Lemma sumZ_nonneg ns : Forall (fun n => 0 <= n) ns -> 0 <= sumZ ns.
Proof. unfold sumZ. induction 1 as [| n ns Hn _ IH]; cbn; lia. Qed.

Lemma sumZ_perm ns ns' : Permutation ns ns' -> sumZ ns = sumZ ns'.
Proof. unfold sumZ. induction 1; cbn; lia. Qed.

(** A left-to-right sum of whole numbers is the whole number of their sum. *)
Lemma fold_add_whole ns acc :
  0 <= acc -> Forall (fun n => 0 <= n) ns -> acc + sumZ ns < 2 ^ 53 ->
  fold_left PrimFloat.add (map JS.whole ns) (JS.whole acc) = JS.whole (acc + sumZ ns).
Proof.
  intros Hacc Hns. revert acc Hacc.
  induction Hns as [| n ns Hn Hns IH]; intros acc Hacc Hsum.
  - change (sumZ []) with 0. now rewrite Z.add_0_r.
  - pose proof (sumZ_nonneg ns Hns).
    change (sumZ (n :: ns)) with (n + sumZ ns) in *. cbn [map fold_left].
    rewrite add_whole by lia. rewrite IH by lia. f_equal. lia.
Qed.

End WholeNumbers.

Section WholeTotals.
Local Open Scope Z_scope.

Lemma below_total ns :
  Forall (fun n => 0 <= n) ns -> sumZ ns < 2 ^ 53 ->
  Forall (fun n => 0 <= n < 2 ^ 53) ns.
Proof.
  induction 1 as [| n ns Hn Hns IH]; intros Hsum; constructor.
  - pose proof (sumZ_nonneg ns Hns).
    change (sumZ (n :: ns)) with (n + sumZ ns) in Hsum. lia.
  - apply IH. change (sumZ (n :: ns)) with (n + sumZ ns) in Hsum. lia.
Qed.

Lemma incomes_whole income ins :
  Forall2 incomeIs income ins ->
  Forall (fun n => 0 <= n) ins /\
  (sumZ ins < 2 ^ 53 ->
   map (fun i => JS.number_or (Income.amount i) 0%float) income = map JS.whole ins).
Proof.
  induction 1 as [| i n income ins [Hn Hi] _ [IH1 IH2]].
  - split; [constructor | reflexivity].
  - split; [now constructor |]. intros Hsum.
    pose proof (sumZ_nonneg ins IH1).
    change (sumZ (n :: ins)) with (n + sumZ ins) in Hsum.
    cbn [map]. rewrite Hi, whole_truthy_or_zero by lia. f_equal. apply IH2. lia.
Qed.

Lemma shares_whole expenses outs :
  Forall2 owedIs expenses outs ->
  Forall (fun n => 0 <= n) outs /\
  (sumZ outs < 2 ^ 53 -> map contribution expenses = map JS.whole outs).
Proof.
  induction 1 as [| e n expenses outs He _ [IH1 IH2]].
  - split; [constructor | reflexivity].
  - assert (Hn : 0 <= n).
    { unfold owedIs in He. destruct (Expense.owed_share e); [apply He | lia]. }
    split; [now constructor |]. intros Hsum.
    pose proof (sumZ_nonneg outs IH1).
    change (sumZ (n :: outs)) with (n + sumZ outs) in Hsum.
    cbn [map]. f_equal; [| apply IH2; lia].
    unfold contribution, owedIs in *.
    destruct (Expense.owed_share e) as [o |]; cbn [JS.opt_number_or].
    + destruct He as [_ ->]. apply whole_truthy_or_zero. lia.
    + now subst n.
Qed.

(** On whole amounts the total income is the exact sum. *)
Lemma totalIncome_whole income ins :
  Forall2 incomeIs income ins -> sumZ ins < 2 ^ 53 ->
  totalIncome income = JS.whole (sumZ ins).
Proof.
  intros H Hsum. destruct (incomes_whole income ins H) as [Hnn Hmap].
  unfold totalIncome. rewrite totalIncome_fold, Hmap by assumption.
  change 0%float with (JS.whole 0).
  now rewrite fold_add_whole by (cbn; lia || assumption).
Qed.

(** On whole shares the total owed is the exact sum. *)
Lemma youOwe_whole expenses outs :
  Forall2 owedIs expenses outs -> sumZ outs < 2 ^ 53 ->
  youOwe expenses = JS.whole (sumZ outs).
Proof.
  intros H Hsum. destruct (shares_whole expenses outs H) as [Hnn Hmap].
  unfold youOwe. rewrite youOwe_fold, Hmap by assumption.
  change 0%float with (JS.whole 0).
  now rewrite fold_add_whole by (cbn; lia || assumption).
Qed.

End WholeTotals.

(** C9, as the claim states it, fails: the incomes 0.1, 0.2, 0.3 total
    0.6000000000000001 in this order and 0.6 in the reverse order, and so
    for the shares of three expenses and for the net balance. *)
Lemma totals_depend_on_order :
  let income := [sample_income "i-1" 0.1; sample_income "i-2" 0.2;
                 sample_income "i-3" 0.3]%float in
  let expenses := [sample "e-1" 0.1 (Some 0.1) None; sample "e-2" 0.2 (Some 0.2) None;
                   sample "e-3" 0.3 (Some 0.3) None]%float in
  Permutation income (rev income) /\
  Permutation expenses (rev expenses) /\
  totalIncome income = 0.6000000000000001%float /\
  totalIncome (rev income) = 0.6%float /\
  totalIncome income <> totalIncome (rev income) /\
  youOwe expenses <> youOwe (rev expenses) /\
  netBalance income [] <> netBalance (rev income) [].
Proof.
  cbv zeta. split; [apply Permutation_rev |]. split; [apply Permutation_rev |].
  vm_compute. repeat split; discriminate.
Qed.

(** C9, amended.  When every income amount and every share owed is a whole
    number, none negative, and each of the two lists adds up to less than
    [2^53], no addition rounds: the total income and the total owed are the
    exact sums, and permuting either list leaves the total income, the
    total owed and the net balance as they are. *)
Theorem totals_order_independent_on_whole_amounts
    income income' expenses expenses' ins outs :
  Forall2 incomeIs income ins ->
  Forall2 owedIs expenses outs ->
  (sumZ ins < 2 ^ 53)%Z ->
  (sumZ outs < 2 ^ 53)%Z ->
  Permutation income income' ->
  Permutation expenses expenses' ->
  totalIncome income = JS.whole (sumZ ins) /\
  youOwe expenses = JS.whole (sumZ outs) /\
  totalIncome income' = totalIncome income /\
  youOwe expenses' = youOwe expenses /\
  netBalance income' expenses' = netBalance income expenses.
Proof.
  intros Hin Hout Hins Houts Pin Pout.
  destruct (Permutation_Forall2 Pin Hin) as (ins' & Pins & Hin').
  destruct (Permutation_Forall2 Pout Hout) as (outs' & Pouts & Hout').
  assert (Ei : totalIncome income' = totalIncome income).
  { rewrite (totalIncome_whole income ins), (totalIncome_whole income' ins');
      try assumption.
    - now rewrite (sumZ_perm _ _ Pins).
    - now rewrite <- (sumZ_perm _ _ Pins). }
  assert (Eo : youOwe expenses' = youOwe expenses).
  { rewrite (youOwe_whole expenses outs), (youOwe_whole expenses' outs');
      try assumption.
    - now rewrite (sumZ_perm _ _ Pouts).
    - now rewrite <- (sumZ_perm _ _ Pouts). }
  repeat split.
  - now apply totalIncome_whole.
  - now apply youOwe_whole.
  - exact Ei.
  - exact Eo.
  - unfold netBalance. now rewrite Ei, Eo.
Qed.

Lemma totals_order_independent_on_whole_amounts_witness :
  let income := [sample_income "i-1" 1200; sample_income "i-2" 350;
                 sample_income "i-3" 9007199254739000]%float in
  let expenses := [sample "e-1" 40 (Some 40) (Some "borrowed");
                   sample "e-2" 25 None (Some "lent");
                   sample "e-3" 7 (Some 0) None]%float in
  totalIncome income = JS.whole 9007199254740550 /\
  youOwe expenses = JS.whole 40 /\
  totalIncome (rev income) = totalIncome income /\
  youOwe (rev expenses) = youOwe expenses /\
  netBalance (rev income) (rev expenses) = netBalance income expenses.
Proof.
  apply (totals_order_independent_on_whole_amounts _ _ _ _
           [1200; 350; 9007199254739000]%Z [40; 0; 0]%Z).
  - repeat (constructor; [split; [lia | reflexivity] |]). constructor.
  - constructor; [split; [lia | reflexivity] |].
    constructor; [reflexivity |].
    constructor; [split; [lia | reflexivity] |]. constructor.
  - vm_compute. reflexivity.
  - vm_compute. reflexivity.
  - apply Permutation_rev.
  - apply Permutation_rev.
Defined.

(** ** Two review sessions, start to end *)

(** Three candidates: the first is skipped, the amount of the second is
    changed from 10 to 15 before it is saved, the third is saved as it
    came.  Two expenses are stored, in that order, the first with amount
    15, and the dashboard is told once. *)
Example review_skip_edit_save :
  let c := run Samples.lower Samples.incl Samples.dateOf dashboardProps
               [Skip; Change (EditAmount 15%float); Save Accepted; Save Accepted]
               (Samples.reviewing Samples.three, Samples.world0) in
  complete (fst c) /\
  map ExpenseData.splitwise_id (posted (snd c)) = ["sw-2"; "sw-3"] /\
  map ExpenseData.amount (posted (snd c)) = [15%float; 4%float] /\
  refreshes (snd c) = 1.
Proof. vm_compute. repeat split. Qed.

(** Three candidates: the first is saved, the save of the second is
    rejected and then repeated.  After the rejection the session still
    stands at the second candidate with one expense stored; after the retry
    it stands at the third with two. *)
Example review_rejected_then_retried :
  let run := run Samples.lower Samples.incl Samples.dateOf dashboardProps in
  let start := (Samples.reviewing Samples.three, Samples.world0) in
  let failed := run [Save Accepted; Save (Rejected (Some "duplicate key"))] start in
  let retried := run [Save Accepted; Save (Rejected (Some "duplicate key"));
                      Save Accepted] start in
  editingExpenseIndex (fst failed) = 1 /\
  error (fst failed) = "duplicate key" /\
  map ExpenseData.splitwise_id (posted (snd failed)) = ["sw-1"] /\
  editingExpenseIndex (fst retried) = 2 /\
  showEditModal (fst retried) = true /\
  map ExpenseData.splitwise_id (posted (snd retried)) = ["sw-1"; "sw-2"].
Proof. vm_compute. repeat split. Qed.

(** * Further properties *)

Set Warnings "-clear-no-such-hyp".

(** ** A whole review *)

Section WholeReview.
Variable toLowerCase : string -> string.
Variable includes : string -> string -> bool.
Variable dateValue : string -> float.
Variable props : Props.

Let run := run toLowerCase includes dateValue props.

Lemma review_from_index keep st w i :
  keep <> [] ->
  editingExpenseIndex st = i ->
  editingExpense st = expensesToConfirm st !! i ->
  i + length keep = length (expensesToConfirm st) ->
  let c := run (map Review.press keep) (st, w) in
  complete (fst c) /\
  importedExpenses (fst c) = unselected st /\
  posted (snd c)
  = posted w ++ map (expenseData (groups st))
                    (Review.saved keep (drop i (expensesToConfirm st))) /\
  refreshes (snd c)
  = refreshes w + (if onExpenseAdded props && default false (last keep)
                   then 1 else 0).
Proof.
  revert st w i. induction keep as [| k keep IH]; intros st w i Hne Hi He Hlen;
    [congruence |].
  cbn [length] in Hlen.
  destruct (expensesToConfirm st !! i) as [c |] eqn:Hc;
    [| apply lookup_ge_None_1 in Hc; lia].
  rewrite (drop_S _ _ _ Hc). cbn [Review.saved map].
  unfold run, ImportPage.run. cbn [map fold_left].
  fold (ImportPage.run toLowerCase includes dateValue props). fold run.
  destruct keep as [| k' keep].
  - (* the last candidate *)
    cbn [length] in Hlen. cbn [map fold_left Review.saved].
    unfold run, ImportPage.run. cbn [map fold_left last default].
    destruct k; cbn [Review.press step].
    + unfold handleSaveExpense. rewrite He, Hi.
      destruct (Nat.ltb_spec (i + 1) (length (expensesToConfirm st))); [lia |].
      cbn [fst snd]. split; [apply setMessage_complete, closeReview_complete |].
      split; [reflexivity |]. rewrite andb_true_r.
      destruct (onExpenseAdded props); cbn; split; (reflexivity || lia).
    + unfold handleSkipExpense. rewrite Hi.
      destruct (Nat.ltb_spec (i + 1) (length (expensesToConfirm st))); [lia |].
      cbn [fst snd]. split; [apply closeReview_complete |].
      split; [reflexivity |]. rewrite andb_false_r.
      split; [now rewrite app_nil_r | lia].
  - (* a candidate before the last *)
    cbn [length] in Hlen.
    assert (Hlast : last (k :: k' :: keep) = last (k' :: keep)) by reflexivity.
    rewrite Hlast.
    assert (Hnext : i + 1 < length (expensesToConfirm st)) by lia.
    apply Nat.ltb_lt in Hnext.
    destruct k; cbn [Review.press step].
    + unfold handleSaveExpense. rewrite He, Hi, Hnext.
      specialize (IH (moveTo (i + 1) st)
                     (mkWorld (posted w ++ [expenseData (groups st) c]) (refreshes w))
                     (i + 1) ltac:(discriminate) eq_refl eq_refl).
      cbn [expensesToConfirm moveTo setEditingExpense setEditingExpenseIndex] in IH.
      specialize (IH ltac:(cbn [length]; lia)).
      destruct IH as (H1 & H2 & H3 & H4).
      replace (i + 1) with (S i) in * by lia.
      split; [exact H1 |]. split; [exact H2 |].
      split; [| exact H4].
      unfold run, ImportPage.run in H3. rewrite H3.
      cbn [posted map]. now rewrite <- app_assoc.
    + unfold handleSkipExpense. rewrite Hi, Hnext.
      specialize (IH (moveTo (i + 1) st) w (i + 1) ltac:(discriminate) eq_refl eq_refl).
      cbn [expensesToConfirm moveTo setEditingExpense setEditingExpenseIndex] in IH.
      specialize (IH ltac:(cbn [length]; lia)).
      destruct IH as (H1 & H2 & H3 & H4).
      replace (i + 1) with (S i) in * by lia.
      split; [exact H1 |]. split; [exact H2 |]. split; [exact H3 | exact H4].
Qed.

End WholeReview.

(** X1. From the first candidate of [N], pressing "Save" (accepted) or
    "Skip" once per candidate ends the review in the complete state, and the
    store has gained exactly the candidates that were saved, each once, in
    the order of the review. *)
Theorem review_stores_what_was_saved lc inc dv props st w keep :
  reviewingAt 0 (length keep) st ->
  editingExpense st = expensesToConfirm st !! 0 ->
  let c := run lc inc dv props (map Review.press keep) (st, w) in
  complete (fst c) /\
  posted (snd c)
  = posted w ++ map (expenseData (groups st))
                    (Review.saved keep (expensesToConfirm st)).
Proof.
  intros (Hm & Hi & HN & Hlt & _) He.
  assert (Hne : keep <> []) by (destruct keep; [cbn in Hlt; lia | discriminate]).
  destruct (review_from_index lc inc dv props keep st w 0 Hne Hi He)
    as (H1 & _ & H3 & _); [now rewrite HN |].
  split; [exact H1 | exact H3].
Qed.

Lemma review_stores_what_was_saved_witness :
  let st := Samples.reviewing Samples.three in
  let keep := [false; true; true] in
  let c := run Samples.lower Samples.incl Samples.dateOf dashboardProps
               (map Review.press keep) (st, Samples.world0) in
  complete (fst c) /\
  posted (snd c)
  = posted Samples.world0
    ++ map (expenseData (groups st)) (Review.saved keep (expensesToConfirm st)).
Proof.
  apply (review_stores_what_was_saved Samples.lower Samples.incl Samples.dateOf
           dashboardProps (Samples.reviewing Samples.three) Samples.world0
           [false; true; true]).
  - repeat split; [cbn; lia | eexists; vm_compute; reflexivity].
  - vm_compute. reflexivity.
Defined.

(** X2. When a review ends, the page's list is the list from before the
    review without every candidate whose id was selected: the saved ones,
    the skipped ones, and selected ones that a filter kept out of the
    review all leave it; the unselected ones stay. *)
Theorem review_end_drops_the_selected lc inc dv props st w keep :
  reviewingAt 0 (length keep) st ->
  editingExpense st = expensesToConfirm st !! 0 ->
  let st' := fst (run lc inc dv props (map Review.press keep) (st, w)) in
  importedExpenses st' = unselected st /\
  forall e, In e (importedExpenses st') <->
            In e (importedExpenses st) /\ ImportedExpense.id e ∉ selectedExpenses st.
Proof.
  intros (Hm & Hi & HN & Hlt & _) He.
  assert (Hne : keep <> []) by (destruct keep; [cbn in Hlt; lia | discriminate]).
  destruct (review_from_index lc inc dv props keep st w 0 Hne Hi He)
    as (_ & H2 & _ & _); [now rewrite HN |].
  cbv zeta. split; [exact H2 |]. intros e. rewrite H2. unfold unselected.
  rewrite List.filter_In, negb_true_iff, bool_decide_eq_false. reflexivity.
Qed.

Lemma review_end_drops_the_selected_witness :
  let st := Samples.reviewing Samples.three in
  let st' := fst (run Samples.lower Samples.incl Samples.dateOf dashboardProps
                      (map Review.press [false; true; false]) (st, Samples.world0)) in
  importedExpenses st' = unselected st /\
  forall e, In e (importedExpenses st') <->
            In e (importedExpenses st) /\ ImportedExpense.id e ∉ selectedExpenses st.
Proof.
  apply (review_end_drops_the_selected Samples.lower Samples.incl Samples.dateOf
           dashboardProps (Samples.reviewing Samples.three) Samples.world0
           [false; true; false]).
  - repeat split; [cbn; lia | eexists; vm_compute; reflexivity].
  - vm_compute. reflexivity.
Defined.

(** X3. Over a whole review the parent's [onExpenseAdded] runs once when the
    last candidate is saved and not at all when the last candidate is
    skipped, whatever was done with the candidates before it. *)
Theorem review_notifies_on_last_save_only lc inc dv st w keep :
  reviewingAt 0 (length keep) st ->
  editingExpense st = expensesToConfirm st !! 0 ->
  refreshes (snd (run lc inc dv dashboardProps (map Review.press keep) (st, w)))
  = refreshes w + (if default false (last keep) then 1 else 0).
Proof.
  intros (Hm & Hi & HN & Hlt & _) He.
  assert (Hne : keep <> []) by (destruct keep; [cbn in Hlt; lia | discriminate]).
  destruct (review_from_index lc inc dv dashboardProps keep st w 0 Hne Hi He)
    as (_ & _ & _ & H4); [now rewrite HN |].
  exact H4.
Qed.

Lemma review_notifies_on_last_save_only_witness :
  refreshes (snd (run Samples.lower Samples.incl Samples.dateOf dashboardProps
                      (map Review.press [true; true; false])
                      (Samples.reviewing Samples.three, Samples.world0)))
  = refreshes Samples.world0 + (if default false (last [true; true; false]) then 1 else 0).
Proof.
  apply (review_notifies_on_last_save_only Samples.lower Samples.incl Samples.dateOf
           (Samples.reviewing Samples.three) Samples.world0 [true; true; false]).
  - repeat split; [cbn; lia | eexists; vm_compute; reflexivity].
  - vm_compute. reflexivity.
Defined.

(** ** Selecting and starting a review *)

Lemma handleAddToExpenses_none lc inc dv st :
  selectedExpenses st = ∅ ->
  handleAddToExpenses lc inc dv st
  = setError "Please select at least one expense to add" st.
Proof. intros E. unfold handleAddToExpenses. now rewrite E, size_empty. Qed.

Lemma handleAddToExpenses_some lc inc dv st :
  selectedExpenses st <> ∅ ->
  handleAddToExpenses lc inc dv st
  = let toAdd := List.filter (fun e => bool_decide (ImportedExpense.id e
                                                    ∈ selectedExpenses st))
                             (applyFilters lc inc dv st) in
    setShowEditModal true
      (setEditingExpenseIndex 0
         (setEditingExpense (toAdd !! 0) (setExpensesToConfirm toAdd st))).
Proof.
  intros Hne. unfold handleAddToExpenses.
  destruct (Nat.eqb_spec (size (selectedExpenses st)) 0) as [Hz | _]; [| reflexivity].
  apply size_empty_iff in Hz. apply leibniz_equiv in Hz. contradiction.
Qed.

Lemma filter_selected_nonempty st (l : list ImportedExpense.t) :
  List.filter (fun e => bool_decide (ImportedExpense.id e ∈ selectedExpenses st)) l <> [] ->
  selectedExpenses st <> ∅.
Proof.
  intros Hne E. apply Hne. rewrite E. clear Hne.
  induction l as [| e l IH]; [reflexivity |].
  cbn. rewrite bool_decide_eq_false_2 by apply not_elem_of_empty. exact IH.
Qed.

Lemma review_started toAdd st :
  toAdd <> [] ->
  reviewingAt 0 (length toAdd)
    (setShowEditModal true
       (setEditingExpenseIndex 0
          (setEditingExpense (toAdd !! 0) (setExpensesToConfirm toAdd st)))).
Proof.
  intros Hne. destruct toAdd as [| c l]; [congruence |].
  repeat split; cbn; [lia | now eexists].
Qed.

(** X4. "Add Selected": with nothing selected the handler only sets the
    error text.  With a selection it puts the shown candidates whose id is
    selected under review, in the order of the page; when there is at
    least one, the review stands at the first of them, and when a filter
    hides every selected candidate the modal is flagged open with no
    current candidate, so that nothing is rendered. *)
Theorem add_selected_starts_review lc inc dv st :
  let toAdd := List.filter (fun e => bool_decide (ImportedExpense.id e ∈ selectedExpenses st))
                           (applyFilters lc inc dv st) in
  let st' := handleAddToExpenses lc inc dv st in
  (selectedExpenses st = ∅ ->
   st' = setError "Please select at least one expense to add" st) /\
  (selectedExpenses st <> ∅ ->
   expensesToConfirm st' = toAdd /\
   importedExpenses st' = importedExpenses st /\
   selectedExpenses st' = selectedExpenses st /\
   showEditModal st' = true) /\
  (toAdd <> [] ->
   reviewingAt 0 (length toAdd) st' /\
   editingExpense st' = expensesToConfirm st' !! 0) /\
  (selectedExpenses st <> ∅ -> toAdd = [] -> editingExpense st' = None).
Proof.
  cbv zeta. split; [apply handleAddToExpenses_none |].
  split; [intros Hne; rewrite (handleAddToExpenses_some _ _ _ _ Hne); repeat split |].
  split.
  - intros Hadd. rewrite (handleAddToExpenses_some _ _ _ _ (filter_selected_nonempty _ _ Hadd)).
    split; [now apply review_started | reflexivity].
  - intros Hne E. rewrite (handleAddToExpenses_some _ _ _ _ Hne). cbn. now rewrite E.
Qed.

Lemma add_selected_starts_review_witness :
  let st := setSelectedExpenses {[ "sw-1"; "sw-3" ]}
              (setImportedExpenses Samples.three initial) in
  let st' := handleAddToExpenses Samples.lower Samples.incl Samples.dateOf st in
  reviewingAt 0 2 st' /\
  map ImportedExpense.id (expensesToConfirm st') = ["sw-1"; "sw-3"] /\
  handleAddToExpenses Samples.lower Samples.incl Samples.dateOf
    (setImportedExpenses Samples.three initial)
  = setError "Please select at least one expense to add"
      (setImportedExpenses Samples.three initial).
Proof.
  pose proof (add_selected_starts_review Samples.lower Samples.incl Samples.dateOf
                (setSelectedExpenses {[ "sw-1"; "sw-3" ]}
                   (setImportedExpenses Samples.three initial))) as (_ & _ & H & _).
  pose proof (add_selected_starts_review Samples.lower Samples.incl Samples.dateOf
                (setImportedExpenses Samples.three initial)) as (H0 & _).
  split; [| split].
  - apply H. vm_compute. discriminate.
  - vm_compute. reflexivity.
  - apply H0. reflexivity.
Defined.

(** X5. Clicking a candidate twice leaves the page as it was; one click
    flips whether that candidate's id is selected and changes no other
    id's selection. *)
Theorem toggle_flips_one_id i st :
  toggleExpenseSelection i (toggleExpenseSelection i st) = st /\
  (i ∈ selectedExpenses (toggleExpenseSelection i st) <-> i ∉ selectedExpenses st) /\
  (forall j, j <> i ->
             (j ∈ selectedExpenses (toggleExpenseSelection i st)
              <-> j ∈ selectedExpenses st)).
Proof.
  unfold toggleExpenseSelection.
  destruct (decide (i ∈ selectedExpenses st)) as [Hin | Hout].
  - rewrite (bool_decide_eq_true_2 _ Hin). cbn [selectedExpenses setSelectedExpenses].
    rewrite bool_decide_eq_false_2 by set_solver.
    split; [| split; [set_solver | intros j Hj; set_solver]].
    destruct st; unfold setSelectedExpenses; cbn in *. f_equal.
    apply set_eq. intros x. destruct (decide (x = i)); set_solver.
  - rewrite (bool_decide_eq_false_2 _ Hout). cbn [selectedExpenses setSelectedExpenses].
    rewrite bool_decide_eq_true_2 by set_solver.
    split; [| split; [set_solver | intros j Hj; set_solver]].
    destruct st; unfold setSelectedExpenses; cbn in *. f_equal. set_solver.
Qed.

Lemma toggle_flips_one_id_witness :
  "sw-2" ∈ selectedExpenses
             (toggleExpenseSelection "sw-1"
                (setSelectedExpenses {[ "sw-2" ]} initial)).
Proof.
  apply (proj2 (proj2 (toggle_flips_one_id "sw-1"
                         (setSelectedExpenses {[ "sw-2" ]} initial)))).
  - discriminate.
  - vm_compute. set_solver.
Defined.

Lemma filter_all_in (l : list ImportedExpense.t) :
  List.filter (fun e => bool_decide (ImportedExpense.id e
                                     ∈ (list_to_set (map ImportedExpense.id l) : gset string)))
              l = l.
Proof.
  assert (H : forall k, (forall e, In e k -> In e l) ->
              List.filter (fun e => bool_decide (ImportedExpense.id e
                                     ∈ (list_to_set (map ImportedExpense.id l) : gset string)))
                          k = k).
  { induction k as [| e k IH]; intros Hk; [reflexivity |]. cbn.
    rewrite bool_decide_eq_true_2.
    - f_equal. apply IH. intros x Hx. apply Hk. now right.
    - apply elem_of_list_to_set, list_elem_of_In, in_map, Hk. now left. }
  apply H. trivial.
Qed.

(** X6. "Select All" compares counts: when the number of selected ids
    equals the number of shown candidates it clears the selection, and
    otherwise it selects exactly the ids of the shown candidates.  In the
    second case, with pairwise distinct ids on show, a second click clears
    the selection again, and "Add Selected" after the first click puts the
    whole shown list under review. *)
Theorem select_all_selects_the_shown lc inc dv st :
  let shown := applyFilters lc inc dv st in
  let st1 := selectAll lc inc dv st in
  (size (selectedExpenses st) = length shown -> selectedExpenses st1 = ∅) /\
  (size (selectedExpenses st) <> length shown ->
   (forall i, i ∈ selectedExpenses st1 <-> In i (map ImportedExpense.id shown)) /\
   (NoDup (map ImportedExpense.id shown) ->
    selectedExpenses (selectAll lc inc dv st1) = ∅) /\
   (shown <> [] ->
    expensesToConfirm (handleAddToExpenses lc inc dv st1) = shown /\
    reviewingAt 0 (length shown) (handleAddToExpenses lc inc dv st1))).
Proof.
  cbv zeta.
  destruct (Nat.eq_dec (size (selectedExpenses st))
                       (length (applyFilters lc inc dv st))) as [E | N].
  - split; [| congruence]. intros _. unfold selectAll.
    now rewrite (proj2 (Nat.eqb_eq _ _) E).
  - split; [congruence |]. intros _.
    set (shown := applyFilters lc inc dv st).
    set (st1 := setSelectedExpenses (list_to_set (map ImportedExpense.id shown)) st).
    assert (Hsa : selectAll lc inc dv st = st1).
    { unfold selectAll. now rewrite (proj2 (Nat.eqb_neq _ _) N). }
    rewrite Hsa.
    assert (Hshown : applyFilters lc inc dv st1 = shown) by reflexivity.
    split; [| split].
    + intros i. cbn. rewrite elem_of_list_to_set. apply list_elem_of_In.
    + intros Hnd. unfold selectAll. rewrite Hshown.
      cbn [selectedExpenses st1 setSelectedExpenses].
      rewrite size_list_to_set, length_map by exact Hnd.
      now rewrite Nat.eqb_refl.
    + intros Hne.
      assert (Hsel : selectedExpenses st1 <> ∅).
      { destruct shown as [| e l] eqn:Es; [congruence |]. cbn.
        intros Hempty. apply (not_elem_of_empty (C := gset string) (ImportedExpense.id e)).
        rewrite <- Hempty. apply elem_of_union_l, elem_of_singleton. reflexivity. }
      rewrite (handleAddToExpenses_some _ _ _ _ Hsel). cbv zeta. rewrite Hshown.
      cbn [selectedExpenses st1 setSelectedExpenses]. rewrite filter_all_in.
      split; [reflexivity | now apply review_started].
Qed.

Lemma select_all_selects_the_shown_witness :
  let st := setImportedExpenses Samples.three initial in
  let st1 := selectAll Samples.lower Samples.incl Samples.dateOf st in
  selectedExpenses (selectAll Samples.lower Samples.incl Samples.dateOf st1) = ∅ /\
  expensesToConfirm (handleAddToExpenses Samples.lower Samples.incl Samples.dateOf st1)
  = Samples.three.
Proof.
  pose proof (select_all_selects_the_shown Samples.lower Samples.incl Samples.dateOf
                (setImportedExpenses Samples.three initial)) as (_ & H).
  destruct H as (_ & H1 & H2); [vm_compute; discriminate |].
  split.
  - apply H1. vm_compute. repeat constructor; set_solver.
  - apply H2. discriminate.
Defined.

(** ** The filters *)

Lemma filter_sublist {A} (f : A -> bool) l : sublist (List.filter f l) l.
Proof.
  induction l as [| x l IH]; cbn; [constructor |].
  destruct (f x); now constructor.
Qed.

Lemma filter_if_sublist {A} (b : bool) (f : A -> bool) l k :
  sublist l k -> sublist (if b then List.filter f l else l) k.
Proof.
  intros H. destruct b; [| exact H].
  transitivity l; [apply filter_sublist | exact H].
Qed.

Lemma filter_if_Forall {A} (P : A -> Prop) (b : bool) (f : A -> bool) l :
  Forall P l -> Forall P (if b then List.filter f l else l).
Proof.
  intros H. destruct b; [| exact H].
  rewrite List.Forall_forall in *. intros x Hx.
  apply List.filter_In in Hx. now apply H.
Qed.

Lemma filter_Forall_true {A} (f : A -> bool) l :
  Forall (fun x => f x = true) (List.filter f l).
Proof.
  rewrite List.Forall_forall. intros x Hx. now apply List.filter_In in Hx.
Qed.

Lemma truthy_string_nonempty s : s <> "" -> JS.truthy_string s = true.
Proof.
  intros H. unfold JS.truthy_string. now destruct (String.eqb_spec s "").
Qed.

(** X7. The filters only hide: the shown list is the imported list with
    candidates left out, in the same order; and every shown candidate
    passes each filter that is set: its description contains the search
    text (both in lower case), its category and its type are the chosen
    ones (a candidate without category or type is hidden), and its date is
    no earlier than "from" and no later than "to". *)
Theorem filters_only_hide lc inc dv st :
  let shown := applyFilters lc inc dv st in
  sublist shown (importedExpenses st) /\
  (searchQuery st <> "" ->
   Forall (fun e => inc (lc (ImportedExpense.description e)) (lc (searchQuery st)) = true)
          shown) /\
  (filterCategory st <> "" ->
   Forall (fun e => ImportedExpense.category e = Some (filterCategory st)) shown) /\
  (filterType st <> "" ->
   Forall (fun e => ImportedExpense.expense_type e = Some (filterType st)) shown) /\
  (filterDateFrom st <> "" ->
   Forall (fun e => (dv (filterDateFrom st) <=? dv (ImportedExpense.date e))%float = true)
          shown) /\
  (filterDateTo st <> "" ->
   Forall (fun e => (dv (ImportedExpense.date e) <=? dv (filterDateTo st))%float = true)
          shown).
Proof.
  cbv zeta. unfold applyFilters.
  split; [repeat apply filter_if_sublist; reflexivity |].
  split; [| split; [| split; [| split]]]; intros H;
    rewrite (truthy_string_nonempty _ H).
  - do 4 apply filter_if_Forall. apply filter_Forall_true.
  - do 3 apply filter_if_Forall.
    eapply Forall_impl; [apply filter_Forall_true |].
    intros e He. now apply bool_decide_eq_true in He.
  - do 2 apply filter_if_Forall.
    eapply Forall_impl; [apply filter_Forall_true |].
    intros e He. now apply bool_decide_eq_true in He.
  - apply filter_if_Forall. apply filter_Forall_true.
  - apply filter_Forall_true.
Qed.

Lemma filters_only_hide_witness :
  let st := setFilterType "lent" (setImportedExpenses Samples.three initial) in
  Forall (fun e => ImportedExpense.expense_type e = Some (filterType st))
         (applyFilters Samples.lower Samples.incl Samples.dateOf st).
Proof.
  apply (filters_only_hide Samples.lower Samples.incl Samples.dateOf
           (setFilterType "lent" (setImportedExpenses Samples.three initial))).
  discriminate.
Defined.

(** X8. With no filter set the page shows every imported candidate, and
    "Clear Filters" brings that about from any state, changing nothing but
    the five filter cells: every other cell of the state is as before. *)
Theorem cleared_filters_show_all lc inc dv st :
  (searchQuery st = "" -> filterCategory st = "" -> filterType st = "" ->
   filterDateFrom st = "" -> filterDateTo st = "" ->
   applyFilters lc inc dv st = importedExpenses st) /\
  applyFilters lc inc dv (clearFilters st) = importedExpenses st /\
  clearFilters st
  = mkState (importedExpenses st) (selectedExpenses st) (loading st) (message st)
            (error st) (showImportForm st) (startDate st) (endDate st)
            (selectedMonth st) "" "" "" "" "" (showEditModal st)
            (expensesToConfirm st) (editingExpenseIndex st) (groups st)
            (editingExpense st).
Proof.
  split; [| split; reflexivity].
  intros H1 H2 H3 H4 H5. unfold applyFilters. now rewrite H1, H2, H3, H4, H5.
Qed.

Lemma cleared_filters_show_all_witness :
  applyFilters Samples.lower Samples.incl Samples.dateOf
               (setImportedExpenses Samples.three initial)
  = Samples.three.
Proof.
  apply (proj1 (cleared_filters_show_all Samples.lower Samples.incl Samples.dateOf
                  (setImportedExpenses Samples.three initial)));
    reflexivity.
Defined.

(** ** What reaches the store *)

Lemma truthy_not_nan x : JS.truthy_number x = true -> PrimFloat.is_nan x = false.
Proof.
  unfold JS.truthy_number. intros H. apply negb_true_iff, orb_false_iff in H. tauto.
Qed.

Lemma number_or_zero_not_nan x : PrimFloat.is_nan (JS.number_or x 0%float) = false.
Proof.
  unfold JS.number_or. destruct (JS.truthy_number x) eqn:E; [| reflexivity].
  now apply truthy_not_nan.
Qed.

Lemma expenseData_wellFormed gs c : Review.wellFormed (expenseData gs c).
Proof.
  unfold Review.wellFormed, expenseData; cbn.
  split; [apply number_or_zero_not_nan |]. split; [reflexivity |].
  split.
  - destruct (ImportedExpense.paid_share c); [apply number_or_zero_not_nan | reflexivity].
  - now apply opt_string_or_default_nonempty.
Qed.

Lemma step_posts lc inc dv props a st w :
  exists news,
    posted (snd (step lc inc dv props a (st, w))) = posted w ++ news /\
    Forall Review.wellFormed news /\
    length news = (if Review.isAcceptedSave a && bool_decide (is_Some (editingExpense st))
                   then 1 else 0).
Proof.
  destruct a; cbn [step snd Review.isAcceptedSave andb];
    try (exists []; rewrite app_nil_r; repeat split; constructor).
  unfold handleSaveExpense.
  destruct (editingExpense st) as [c |].
  - destruct r.
    + exists [expenseData (groups st) c].
      split; [| split; [repeat constructor; apply expenseData_wellFormed | reflexivity]].
      destruct (Nat.ltb _ _); [reflexivity |].
      cbn. now destruct (onExpenseAdded props).
    + exists []. rewrite app_nil_r. repeat split; constructor.
  - exists []. rewrite app_nil_r. cbn. destruct r; repeat split; constructor.
Qed.

(** X9. Whatever is done on the page, the store only grows: what it held
    before is still there, in place, and what the page added is at most one
    expense per accepted save, each with an amount that is a number (never
    NaN), a share equal to that amount and a type that is not empty. *)
Theorem page_only_appends_well_formed lc inc dv props acts st w :
  exists news,
    posted (snd (run lc inc dv props acts (st, w))) = posted w ++ news /\
    Forall Review.wellFormed news /\
    length news <= length (List.filter Review.isAcceptedSave acts).
Proof.
  revert st w. induction acts as [| a acts IH]; intros st w.
  - exists []. cbn. rewrite app_nil_r. repeat split; constructor.
  - cbn [run fold_left].
    destruct (step_posts lc inc dv props a st w) as (n1 & E1 & F1 & L1).
    destruct (step lc inc dv props a (st, w)) as [st1 w1] eqn:Es. cbn [snd] in E1.
    destruct (IH st1 w1) as (n2 & E2 & F2 & L2).
    exists (n1 ++ n2). unfold run in E2. rewrite E2, E1, app_assoc.
    split; [reflexivity |]. split; [now apply Forall_app |].
    rewrite length_app, L1. cbn [List.filter].
    destruct (Review.isAcceptedSave a); cbn [andb length].
    + destruct (bool_decide _); lia.
    + lia.
Qed.

(** X10. Changing the amount input and saving stores the number typed when
    it is neither 0 nor NaN; when the input parses to 0 or to NaN the
    candidate's raw amount is stored instead (and 0 if that is 0 or NaN
    too).  Every other field of the stored expense is what it would have
    been without the change. *)
Theorem amount_edit_then_save props st w c p :
  editingExpense st = Some c ->
  let d0 := expenseData (groups st) c in
  let w' := snd (handleSaveExpense props Accepted (handleEdit (EditAmount p) st) w) in
  exists d,
    posted w' = posted w ++ [d] /\
    ExpenseData.amount d
    = (if JS.truthy_number p then p else JS.number_or (ImportedExpense.amount c) 0%float) /\
    ExpenseData.owed_share d = ExpenseData.amount d /\
    ExpenseData.description d = ExpenseData.description d0 /\
    ExpenseData.currency d = ExpenseData.currency d0 /\
    ExpenseData.date d = ExpenseData.date d0 /\
    ExpenseData.category d = ExpenseData.category d0 /\
    ExpenseData.group_id d = ExpenseData.group_id d0 /\
    ExpenseData.group_name d = ExpenseData.group_name d0 /\
    ExpenseData.expense_type d = ExpenseData.expense_type d0 /\
    ExpenseData.paid_share d = ExpenseData.paid_share d0 /\
    ExpenseData.splitwise_id d = ExpenseData.splitwise_id d0.
Proof.
  intros Hc. cbv zeta.
  destruct (save_after_edits props st w c [EditAmount p] Hc) as [_ H].
  cbn [fold_left] in H.
  exists (expenseData (groups st) (applyEdit (EditAmount p) c)).
  split; [exact H |]. destruct c; cbn.
  split; [| repeat split].
  destruct (JS.truthy_number p) eqn:Ep.
  - now rewrite !(number_or_truthy p _ Ep).
  - rewrite (number_or_falsy p _ Ep). now rewrite (number_or_falsy 0%float).
Qed.

Lemma amount_edit_then_save_witness :
  let st := Samples.reviewing Samples.three in
  let c := Samples.cand "sw-1" 30%float (Some 12.5%float) in
  let d0 := expenseData (groups st) c in
  let w' := snd (handleSaveExpense dashboardProps Accepted
                   (handleEdit (EditAmount 0%float) st) Samples.world0) in
  exists d,
    posted w' = posted Samples.world0 ++ [d] /\
    ExpenseData.amount d
    = (if JS.truthy_number 0%float then 0%float
       else JS.number_or (ImportedExpense.amount c) 0%float) /\
    ExpenseData.owed_share d = ExpenseData.amount d /\
    ExpenseData.description d = ExpenseData.description d0 /\
    ExpenseData.currency d = ExpenseData.currency d0 /\
    ExpenseData.date d = ExpenseData.date d0 /\
    ExpenseData.category d = ExpenseData.category d0 /\
    ExpenseData.group_id d = ExpenseData.group_id d0 /\
    ExpenseData.group_name d = ExpenseData.group_name d0 /\
    ExpenseData.expense_type d = ExpenseData.expense_type d0 /\
    ExpenseData.paid_share d = ExpenseData.paid_share d0 /\
    ExpenseData.splitwise_id d = ExpenseData.splitwise_id d0.
Proof.
  apply (amount_edit_then_save dashboardProps (Samples.reviewing Samples.three)
           Samples.world0 (Samples.cand "sw-1" 30%float (Some 12.5%float)) 0%float).
  vm_compute. reflexivity.
Defined.

Lemma find_group_unique gs g :
  In g gs ->
  (forall g', In g' gs -> Group.id g' = Group.id g -> g' = g) ->
  List.find (fun x => String.eqb (Group.id x) (Group.id g)) gs = Some g.
Proof.
  induction gs as [| x gs IH]; intros Hin Huniq; [contradiction |].
  cbn. destruct (String.eqb_spec (Group.id x) (Group.id g)) as [E | N].
  - f_equal. apply Huniq; [now left | exact E].
  - apply IH.
    + destruct Hin as [-> | Hin]; [congruence | exact Hin].
    + intros g' Hg'. apply Huniq. now right.
Qed.

Lemma find_group_none gs v :
  (forall g, In g gs -> Group.id g <> v) ->
  List.find (fun x => String.eqb (Group.id x) v) gs = None.
Proof.
  induction gs as [| x gs IH]; intros H; [reflexivity |].
  cbn. destruct (String.eqb_spec (Group.id x) v) as [E | N].
  - exfalso. apply (H x); [now left | exact E].
  - apply IH. intros g Hg. apply H. now right.
Qed.

(** X11. Picking a group in the modal: when the page's groups have
    pairwise distinct ids and the picked id is that of one of them, the
    expense is saved with that group's id and name; when no group has the
    picked id, it is saved with the picked id and an empty group name. *)
Theorem picked_group_is_sent gs c v :
  let d := expenseData gs (applyEdit (EditGroup v) c) in
  ExpenseData.group_id d = v /\
  (forall g, In g gs ->
             (forall g', In g' gs -> Group.id g' = Group.id g -> g' = g) ->
             v = Group.id g ->
             ExpenseData.group_name d = Group.name g) /\
  ((forall g, In g gs -> Group.id g <> v) -> ExpenseData.group_name d = "").
Proof.
  destruct c; cbn. split; [apply string_or_empty |]. split.
  - intros g Hin Huniq ->. unfold groupName.
    rewrite (find_group_unique gs g Hin Huniq). apply string_or_empty.
  - intros Hnone. unfold groupName. now rewrite (find_group_none gs v Hnone).
Qed.

Lemma picked_group_is_sent_witness :
  let gs := [Group.mk "g1" "Household" None None; Group.mk "g2" "Travel" None None] in
  ExpenseData.group_name
    (expenseData gs (applyEdit (EditGroup "g2") (Samples.cand "sw-1" 30 None)%float))
  = "Travel" /\
  ExpenseData.group_name
    (expenseData gs (applyEdit (EditGroup "g9") (Samples.cand "sw-1" 30 None)%float))
  = "".
Proof.
  split.
  - apply (proj1 (proj2 (picked_group_is_sent
                           [Group.mk "g1" "Household" None None;
                            Group.mk "g2" "Travel" None None]
                           (Samples.cand "sw-1" 30 None)%float "g2"))
             (Group.mk "g2" "Travel" None None)).
    + right. now left.
    + intros g' [<- | [<- | []]]; [discriminate | reflexivity].
    + reflexivity.
  - apply (proj2 (proj2 (picked_group_is_sent
                           [Group.mk "g1" "Household" None None;
                            Group.mk "g2" "Travel" None None]
                           (Samples.cand "sw-1" 30 None)%float "g9"))).
    intros g [<- | [<- | []]]; discriminate.
Defined.

(** ** The import fetch *)




(** ** What every reachable state satisfies *)

Section Reachable.
Variable toLowerCase : string -> string.
Variable includes : string -> string -> bool.
Variable dateValue : string -> float.
Variable props : Props.

(** The list is clean, the candidates under review are clean, and header
    and body of the modal agree. *)
Let inv (st : State) : Prop :=
  notImported (importedExpenses st) /\
  notImported (expensesToConfirm st) /\
  Review.consistent st.

Lemma applyEdit_keeps_flag ed e :
  ImportedExpense.already_imported (applyEdit ed e)
  = ImportedExpense.already_imported e.
Proof. destruct e, ed; reflexivity. Qed.

Lemma consistent_started toAdd st :
  Review.consistent
    (setShowEditModal true
       (setEditingExpenseIndex 0
          (setEditingExpense (toAdd !! 0) (setExpensesToConfirm toAdd st)))).
Proof.
  unfold Review.consistent; cbn. destruct toAdd as [| c l]; cbn.
  - now split.
  - exists c. repeat split.
Qed.

Lemma consistent_moveTo st :
  editingExpenseIndex st + 1 < length (expensesToConfirm st) ->
  Review.consistent (moveTo (editingExpenseIndex st + 1) st).
Proof.
  intros Hlt. unfold Review.consistent; cbn.
  destruct (lookup_lt_is_Some_2 _ _ Hlt) as [c Hc]. rewrite Hc.
  exists c. repeat split.
Qed.

Lemma consistent_closeReview st : Review.consistent (closeReview st).
Proof. unfold Review.consistent; cbn. now split. Qed.

Lemma step_inv a c :
  inv (fst c) -> inv (fst (step toLowerCase includes dateValue props a c)).
Proof.
  destruct c as [st w]. cbn [fst]. intros (Hi & Hc & Hk).
  assert (Hi' : notImported
                  (importedExpenses
                     (fst (step toLowerCase includes dateValue props a (st, w)))))
    by (now apply step_notImported).
  split; [exact Hi' |]. clear Hi'.
  destruct a; cbn [step fst]; try (split; [exact Hc | exact Hk]).
  - (* a fetch *)
    destruct r as [[es |] msg | detail]; (split; [exact Hc | exact Hk]).
  - unfold toggleExpenseSelection.
    destruct (bool_decide _); (split; [exact Hc | exact Hk]).
  - unfold selectAll. destruct (Nat.eqb _ _); (split; [exact Hc | exact Hk]).
  - (* "Add Selected" *)
    unfold handleAddToExpenses.
    destruct (Nat.eqb _ _); [split; [exact Hc | exact Hk] |].
    split; [| apply consistent_started].
    cbn. apply notImported_filter. now apply applyFilters_notImported.
  - (* an edit *)
    unfold handleEdit. destruct (editingExpense st) as [c |] eqn:E; [| now split].
    split; [exact Hc |].
    unfold Review.consistent in *. rewrite E in Hk. cbn.
    destruct Hk as (c0 & H0 & H1 & H2 & H3). exists c0.
    destruct (applyEdit_keeps_ids ed c) as [K1 K2].
    rewrite K1, K2, applyEdit_keeps_flag. now repeat split.
  - (* a save *)
    unfold handleSaveExpense. destruct (editingExpense st) as [c |] eqn:E; [| now split].
    destruct r; [| split; [exact Hc | exact Hk]].
    destruct (Nat.ltb_spec (editingExpenseIndex st + 1) (length (expensesToConfirm st))).
    + split; [exact Hc | now apply consistent_moveTo].
    + split; [constructor | apply consistent_closeReview].
  - (* a skip *)
    unfold handleSkipExpense.
    destruct (Nat.ltb_spec (editingExpenseIndex st + 1) (length (expensesToConfirm st))).
    + split; [exact Hc | now apply consistent_moveTo].
    + split; [constructor | apply consistent_closeReview].
Qed.

Lemma run_inv acts c :
  inv (fst c) -> inv (fst (run toLowerCase includes dateValue props acts c)).
Proof.
  revert c. induction acts as [| a acts IH]; intros c H; [exact H |].
  cbn [run fold_left]. apply IH. now apply step_inv.
Qed.

End Reachable.

Lemma notImported_lookup (l : list ImportedExpense.t) k c :
  notImported l -> l !! k = Some c -> ImportedExpense.already_imported c = false.
Proof.
  unfold notImported. rewrite List.Forall_forall. intros H Hk.
  apply H, list_elem_of_In. now apply list_elem_of_lookup_2 in Hk.
Qed.

Lemma step_clean lc inc dv props a st w :
  Async.clean st -> Async.clean (fst (step lc inc dv props a (st, w))).
Proof.
  intros (Hi & Hc & He).
  assert (Hi' : notImported
                  (importedExpenses (fst (step lc inc dv props a (st, w)))))
    by (now apply (step_notImported lc inc dv props a (st, w))).
  split; [exact Hi' |]. clear Hi'.
  destruct a; cbn [step fst]; try (split; [exact Hc | exact He]).
  - destruct r as [[es |] msg | detail]; (split; [exact Hc | exact He]).
  - unfold toggleExpenseSelection.
    destruct (bool_decide _); (split; [exact Hc | exact He]).
  - unfold selectAll. destruct (Nat.eqb _ _); (split; [exact Hc | exact He]).
  - unfold handleAddToExpenses.
    destruct (Nat.eqb _ _); [split; [exact Hc | exact He] |].
    assert (Hadd : notImported
                     (List.filter
                        (fun e => bool_decide (ImportedExpense.id e ∈ selectedExpenses st))
                        (applyFilters lc inc dv st)))
      by (apply notImported_filter; now apply applyFilters_notImported).
    split; [exact Hadd |]. cbn. intros c Hl. exact (notImported_lookup _ _ _ Hadd Hl).
  - unfold handleEdit. destruct (editingExpense st) as [c |] eqn:E;
      [| split; [exact Hc | intros c0 H0; apply He; congruence]].
    split; [exact Hc |]. cbn. intros c' [= <-].
    rewrite applyEdit_keeps_flag. now apply He.
  - unfold handleSaveExpense. destruct (editingExpense st) as [c |] eqn:E;
      [| split; [exact Hc | intros c0 H0; apply He; cbn in H0; congruence]].
    destruct r; [| split; [exact Hc | intros c0 H0; apply He; cbn in H0; congruence]].
    destruct (Nat.ltb _ _).
    + split; [exact Hc |]. cbn. intros c' Hl. exact (notImported_lookup _ _ _ Hc Hl).
    + split; [constructor | cbn; discriminate].
  - unfold handleSkipExpense. destruct (Nat.ltb _ _).
    + split; [exact Hc |]. cbn. intros c' Hl. exact (notImported_lookup _ _ _ Hc Hl).
    + split; [constructor | cbn; discriminate].
Qed.

Lemma saveAnswer_clean props r snap cur w :
  Async.clean snap -> Async.clean cur ->
  Async.clean (fst (saveAnswer props r snap cur w)).
Proof.
  intros (Si & Sc & Se) (Ci & Cc & Ce). unfold saveAnswer.
  destruct (editingExpense snap) as [c |]; [| now repeat split].
  destruct r; [| now repeat split].
  destruct (Nat.ltb _ _); cbn [fst].
  - split; [exact Ci |]. split; [exact Cc |].
    cbn. intros c' Hl. exact (notImported_lookup _ _ _ Sc Hl).
  - split; [cbn; now apply notImported_filter |].
    split; [constructor | cbn; discriminate].
Qed.

Lemma async_step_clean lc inc dv props e p :
  Async.clean (Async.now p) -> Forall Async.clean (Async.pending p) ->
  Async.clean (Async.now (Async.step lc inc dv props e p)) /\
  Forall Async.clean (Async.pending (Async.step lc inc dv props e p)).
Proof.
  intros Hn Hp. destruct e as [a | | k r]; cbn [Async.step].
  - cbn. split; [now apply step_clean | exact Hp].
  - destruct (editingExpense (Async.now p)); [| now split].
    cbn. split; [exact Hn |]. apply Forall_app. split; [exact Hp | now constructor].
  - destruct (Async.pending p !! k) as [snap |] eqn:Ek; [| now split].
    cbn. split.
    + apply saveAnswer_clean; [| exact Hn].
      rewrite Forall_lookup in Hp. exact (Hp _ _ Ek).
    + now apply Forall_delete.
Qed.

Lemma async_run_clean lc inc dv props events p :
  Async.clean (Async.now p) -> Forall Async.clean (Async.pending p) ->
  Async.clean (Async.now (Async.run lc inc dv props events p)).
Proof.
  revert p. induction events as [| e events IH]; intros p Hn Hp; [exact Hn |].
  cbn [Async.run fold_left].
  destruct (async_step_clean lc inc dv props e p Hn Hp) as [Hn' Hp'].
  now apply IH.
Qed.

Lemma settled_run lc inc dv props events st w :
  Async.settled events = true ->
  Async.run lc inc dv props events (Async.mkPage st [] w)
  = Async.mkPage (fst (run lc inc dv props (Async.actions events) (st, w))) []
                 (snd (run lc inc dv props (Async.actions events) (st, w))).
Proof.
  revert st w. induction events as [| e events IH]; intros st w Hs; [reflexivity |].
  cbn in Hs. apply andb_true_iff in Hs as [He Hs].
  destruct e as [a | |]; try discriminate.
  change (Async.run lc inc dv props (Async.Do a :: events) (Async.mkPage st [] w))
    with (Async.run lc inc dv props events
            (Async.mkPage (fst (step lc inc dv props a (st, w))) []
                          (snd (step lc inc dv props a (st, w))))).
  rewrite (IH _ _ Hs).
  change (Async.actions (Async.Do a :: events)) with (a :: Async.actions events).
  change (run lc inc dv props (a :: Async.actions events) (st, w))
    with (run lc inc dv props (Async.actions events) (step lc inc dv props a (st, w))).
  now destruct (step lc inc dv props a (st, w)).
Qed.

(** X13. Under every interleaving of the page's actions with the answers to
    its saves, no candidate under review and no current candidate of the
    modal is flagged already imported.  As long as every save is answered
    before the next event, the current candidate is moreover the candidate
    at the current index of the list under review, up to the user's edits
    (the index is within the list, id and provider id are those of the
    candidate there), and without a current candidate the list under
    review is empty and the index 0. *)
Theorem modal_shows_the_indexed_candidate lc inc dv props events w :
  let st := Async.now (Async.run lc inc dv props events (Async.mounted w)) in
  notImported (expensesToConfirm st) /\
  (forall c, editingExpense st = Some c ->
             ImportedExpense.already_imported c = false) /\
  (Async.settled events = true ->
   match editingExpense st with
   | Some c =>
       editingExpenseIndex st < length (expensesToConfirm st) /\
       exists c0, expensesToConfirm st !! editingExpenseIndex st = Some c0 /\
                  ImportedExpense.id c = ImportedExpense.id c0 /\
                  ImportedExpense.splitwise_id c = ImportedExpense.splitwise_id c0
   | None => expensesToConfirm st = [] /\ editingExpenseIndex st = 0
   end).
Proof.
  cbv zeta.
  destruct (async_run_clean lc inc dv props events (Async.mounted w))
    as (_ & Hc & He).
  { repeat split; [constructor | constructor | discriminate]. }
  { constructor. }
  split; [exact Hc |]. split; [exact He |]. clear Hc He.
  intros Hs. unfold Async.mounted. rewrite (settled_run _ _ _ _ _ _ _ Hs).
  cbn [Async.now].
  destruct (run_inv lc inc dv props (Async.actions events) (initial, w)) as (_ & _ & Hk).
  { repeat split; constructor. }
  unfold Review.consistent in Hk.
  destruct (editingExpense _) as [c |]; [| exact Hk].
  destruct Hk as (c0 & H0 & H1 & H2 & _).
  split; [now apply lookup_lt_Some in H0 |]. exists c0. now repeat split.
Qed.

Lemma modal_shows_the_indexed_candidate_witness :
  let events := [Async.Do (Import (Imported (Some Samples.three) None));
                 Async.Do SelectAll; Async.Do AddToExpenses;
                 Async.Do (Change (EditAmount 15%float)); Async.Do (Save Accepted)] in
  let st := Async.now (Async.run Samples.lower Samples.incl Samples.dateOf
                         dashboardProps events (Async.mounted Samples.world0)) in
  editingExpenseIndex st = 1 /\
  match editingExpense st with
  | Some c =>
      editingExpenseIndex st < length (expensesToConfirm st) /\
      exists c0, expensesToConfirm st !! editingExpenseIndex st = Some c0 /\
                 ImportedExpense.id c = ImportedExpense.id c0 /\
                 ImportedExpense.splitwise_id c = ImportedExpense.splitwise_id c0
  | None => expensesToConfirm st = [] /\ editingExpenseIndex st = 0
  end.
Proof.
  split; [vm_compute; reflexivity |].
  apply (modal_shows_the_indexed_candidate Samples.lower Samples.incl Samples.dateOf
           dashboardProps
           [Async.Do (Import (Imported (Some Samples.three) None));
            Async.Do SelectAll; Async.Do AddToExpenses;
            Async.Do (Change (EditAmount 15%float)); Async.Do (Save Accepted)]
           Samples.world0).
  reflexivity.
Defined.

(** A save answered late.  Two candidates are under review; "Save" is
    pressed on the first and, while its [POST] is in flight, "Skip" is
    pressed twice, which completes the review.  The answer then sets index
    and current candidate from the state at the click: the page is left
    with the modal closed, no list under review, index 1 and the second
    candidate as the current one. *)
Example save_answered_after_the_review_ended :
  let p := Async.run Samples.lower Samples.incl Samples.dateOf dashboardProps
             [Async.Click; Async.Do Skip; Async.Do Skip; Async.Answer 0 Accepted]
             (Async.mkPage (Samples.reviewing (firstn 2 Samples.three)) []
                           Samples.world0) in
  showEditModal (Async.now p) = false /\
  expensesToConfirm (Async.now p) = [] /\
  editingExpenseIndex (Async.now p) = 1 /\
  ImportedExpense.id <$> editingExpense (Async.now p) = Some "sw-2" /\
  map ExpenseData.splitwise_id (posted (Async.world p)) = ["sw-1"] /\
  Async.pending p = [].
Proof. vm_compute. repeat split. Qed.

(** A save clicked twice.  Both [POST]s carry the first candidate; when
    both are accepted the store holds it twice and the review stands at the
    second candidate. *)
Example save_clicked_twice :
  let p := Async.run Samples.lower Samples.incl Samples.dateOf dashboardProps
             [Async.Click; Async.Click; Async.Answer 0 Accepted; Async.Answer 0 Accepted]
             (Async.mkPage (Samples.reviewing Samples.three) [] Samples.world0) in
  map ExpenseData.splitwise_id (posted (Async.world p)) = ["sw-1"; "sw-1"] /\
  reviewingAt 1 3 (Async.now p).
Proof.
  cbv zeta. split; [vm_compute; reflexivity |].
  repeat split; [lia | eexists; vm_compute; reflexivity].
Qed.

(** ** The menu and the tabs *)

(** X14. On every path the menu and the dashboard compute the same tab,
    exactly one of the six tab bodies is rendered and exactly one menu link
    is drawn active, the one for that tab; and each menu link leads to a
    path on which its own tab is the one shown. *)
Theorem one_tab_on_every_path path :
  Navbar.getActiveTab path = DashboardPage.getActiveTab path /\
  DashboardPage.rendered path = [DashboardPage.getActiveTab path] /\
  (exists to_, Navbar.activeLinks path = [(to_, DashboardPage.getActiveTab path)]) /\
  Forall (fun l => DashboardPage.getActiveTab (fst l) = snd l) Navbar.links.
Proof.
  split; [reflexivity |].
  split; [| split; [| repeat constructor]].
  - unfold DashboardPage.rendered, DashboardPage.getActiveTab.
    repeat match goal with
           | |- context [String.eqb path ?s] => destruct (String.eqb path s)
           end; reflexivity.
  - unfold Navbar.activeLinks, Navbar.getActiveTab, DashboardPage.getActiveTab.
    repeat match goal with
           | |- context [String.eqb path ?s] => destruct (String.eqb path s)
           end; cbn; eexists; reflexivity.
Qed.

(** ** The dashboard's expense list *)

Lemma JS_string_or_nonempty s d : s <> "" -> JS.string_or s d = s.
Proof.
  intros H. unfold JS.string_or. now rewrite (truthy_string_nonempty s H).
Qed.

Lemma stamped_id_nonempty o stamp : JS.opt_string_or o ("expense-" +:+ stamp) <> "".
Proof. apply opt_string_or_default_nonempty. discriminate. Qed.

Lemma opt_or_first i b : i <> "" -> DashboardPage.opt_or (Some i) b = Some i.
Proof.
  intros H. unfold DashboardPage.opt_or. now rewrite (truthy_string_nonempty i H).
Qed.

(** X15. After a fetch of the expense list that succeeds, the page lists
    one expense per returned element, in the returned order and with the
    returned shares; each has a non-empty id, and an element that came with
    a non-empty [id] keeps it.  The page count is then neither 0 nor NaN.
    A fetch that fails leaves list, page and counts as they were.  Either
    way the loading flag is off. *)
Theorem fetched_expenses_have_ids page es total total_pages stamp st :
  let ok := DashboardPage.fetchExpenses page
              (DashboardPage.Fetched (Some es) total total_pages) stamp st in
  let failed := DashboardPage.fetchExpenses page DashboardPage.FetchFailed stamp st in
  length (DashboardPage.expenses ok) = length es /\
  map Dashboard.Expense.owed_share (DashboardPage.expenses ok)
  = map DashboardPage.RawExpense.owed_share es /\
  Forall (fun e => Dashboard.Expense.id e <> "") (DashboardPage.expenses ok) /\
  (forall k raw i,
      es !! k = Some raw -> DashboardPage.RawExpense.id raw = Some i -> i <> "" ->
      Dashboard.Expense.id <$> (DashboardPage.expenses ok !! k) = Some i) /\
  DashboardPage.expensesPage ok = page /\
  JS.truthy_number (DashboardPage.expensesTotalPages ok) = true /\
  DashboardPage.loadingExpenses ok = false /\
  DashboardPage.expenses failed = DashboardPage.expenses st /\
  DashboardPage.expensesPage failed = DashboardPage.expensesPage st /\
  DashboardPage.expensesTotalPages failed = DashboardPage.expensesTotalPages st /\
  DashboardPage.loadingExpenses failed = false.
Proof.
  cbv zeta. cbn.
  split; [apply length_imap |].
  split.
  { apply list_eq. intros k. rewrite !list_lookup_fmap, list_lookup_imap.
    now destruct (es !! k). }
  split.
  { apply Forall_lookup. intros k e He. rewrite list_lookup_imap in He.
    destruct (es !! k) as [raw |]; [| discriminate].
    cbn in He. injection He as <-. apply stamped_id_nonempty. }
  split.
  { intros k raw i Hk Hid Hi. rewrite list_lookup_imap, Hk. cbn. f_equal.
    rewrite Hid, !(opt_or_first i _ Hi). cbn. now apply JS_string_or_nonempty. }
  split; [reflexivity |].
  split; [| repeat split].
  destruct total_pages as [x |]; [| reflexivity].
  cbn. unfold JS.number_or. now destruct (JS.truthy_number x) eqn:E.
Qed.

Lemma fetched_expenses_have_ids_witness :
  let es := [Samples2.raw (Some "e-1") (Some 4%float); Samples2.raw None None] in
  let ok := DashboardPage.fetchExpenses 1%float
              (DashboardPage.Fetched (Some es) None None) Samples2.stamps
              Samples2.page0 in
  Dashboard.Expense.id <$> (DashboardPage.expenses ok !! 0) = Some "e-1".
Proof.
  pose proof (fetched_expenses_have_ids 1%float
                [Samples2.raw (Some "e-1") (Some 4%float); Samples2.raw None None]
                None None Samples2.stamps Samples2.page0) as H.
  cbv zeta in H. destruct H as (_ & _ & _ & H & _).
  apply (H 0 (Samples2.raw (Some "e-1") (Some 4%float)) "e-1");
    [reflexivity | reflexivity | discriminate].
Defined.

(** X16. Dropping the dragged expense on a group changes no summary figure:
    the list keeps its length, its order of ids and every share, so the
    total owed and the net balance are as before.  The expenses with the
    dragged id get the group's id, and its name when the page knows such a
    group; all others are left as they are; nothing is dragged afterwards.
    A drop with nothing dragged changes nothing. *)
Theorem drop_regroups_and_keeps_totals groupId st :
  let st' := DashboardPage.handleDrop groupId st in
  map Dashboard.Expense.id (DashboardPage.expenses st')
  = map Dashboard.Expense.id (DashboardPage.expenses st) /\
  youOwe (DashboardPage.expenses st') = youOwe (DashboardPage.expenses st) /\
  netBalance (DashboardPage.income st') (DashboardPage.expenses st')
  = netBalance (DashboardPage.income st) (DashboardPage.expenses st) /\
  DashboardPage.draggedExpense st' = None /\
  (DashboardPage.draggedExpense st = None -> st' = st) /\
  (forall dragged k e,
      DashboardPage.draggedExpense st = Some dragged ->
      DashboardPage.expenses st !! k = Some e ->
      DashboardPage.expenses st' !! k
      = Some (if String.eqb (Dashboard.Expense.id e) (Dashboard.Expense.id dragged)
              then DashboardPage.regroup (DashboardPage.groups st) groupId e
              else e)) /\
  (forall gs e, Dashboard.Expense.group_id (DashboardPage.regroup gs groupId e)
                = Some groupId) /\
  (forall gs e g,
      List.find (fun x => String.eqb (DashboardPage.Group.id x) groupId) gs = Some g ->
      Dashboard.Expense.group_name (DashboardPage.regroup gs groupId e)
      = Some (DashboardPage.Group.name g)).
Proof.
  cbv zeta. unfold DashboardPage.handleDrop.
  destruct (DashboardPage.draggedExpense st) as [d |] eqn:Ed.
  - cbn [DashboardPage.expenses DashboardPage.income DashboardPage.draggedExpense].
    assert (Hshare : map Dashboard.Expense.owed_share
                       (map (fun e => if String.eqb (Dashboard.Expense.id e)
                                                    (Dashboard.Expense.id d)
                                      then DashboardPage.regroup (DashboardPage.groups st)
                                                                 groupId e
                                      else e) (DashboardPage.expenses st))
                     = map Dashboard.Expense.owed_share (DashboardPage.expenses st)).
    { rewrite map_map. apply map_ext. intros e.
      now destruct (String.eqb _ _). }
    assert (Howe := youOwe_reads_owed_share_only _ _ Hshare).
    split.
    { rewrite map_map. apply map_ext. intros e. now destruct (String.eqb _ _). }
    split; [exact Howe |].
    split; [unfold netBalance; now rewrite Howe |].
    split; [reflexivity |]. split; [discriminate |].
    split.
    { intros dragged k e [= <-] Hk. now rewrite list_lookup_fmap, Hk. }
    split; [reflexivity |].
    intros gs e g Hg. cbn. now rewrite Hg.
  - rewrite Ed. repeat split.
    + discriminate.
    + intros gs e g Hg. cbn. now rewrite Hg.
Qed.

Lemma drop_regroups_and_keeps_totals_witness :
  let e1 := sample "e-1" 12%float (Some 12%float) None in
  let e2 := sample "e-2" 30%float (Some 7.5%float) None in
  let st := DashboardPage.handleDragStart e2
              (DashboardPage.mkState [e1; e2] [Samples2.travel] [] None
                                     1%float 2%float 1%float false) in
  DashboardPage.expenses (DashboardPage.handleDrop "g2" st) !! 1
  = Some (DashboardPage.regroup [Samples2.travel] "g2" e2).
Proof.
  pose proof (drop_regroups_and_keeps_totals "g2"
                (DashboardPage.handleDragStart
                   (sample "e-2" 30%float (Some 7.5%float) None)
                   (DashboardPage.mkState
                      [sample "e-1" 12%float (Some 12%float) None;
                       sample "e-2" 30%float (Some 7.5%float) None]
                      [Samples2.travel] [] None 1%float 2%float 1%float false))) as H.
  cbv zeta in H. destruct H as (_ & _ & _ & _ & _ & H & _).
  apply (H (sample "e-2" 30%float (Some 7.5%float) None) 1
           (sample "e-2" 30%float (Some 7.5%float) None)); reflexivity.
Defined.

(** ** The options of the filter menus *)

Lemma distinct_In l x : In x (FilterOptions.distinct l) <-> In x l.
Proof.
  induction l as [| y l IH]; [reflexivity |]. cbn.
  rewrite List.filter_In, IH, negb_true_iff.
  destruct (String.eqb_spec x y) as [-> | N]; [tauto |].
  split; [intros [-> | [H _]]; tauto | intros [-> | H]; [tauto | right; tauto]].
Qed.

Lemma distinct_NoDup l : NoDup (FilterOptions.distinct l).
Proof.
  induction l as [| y l IH]; cbn; [constructor |].
  apply NoDup_cons. split.
  - rewrite list_elem_of_In, List.filter_In, negb_true_iff.
    intros [_ H]. now rewrite String.eqb_refl in H.
  - apply NoDup_ListNoDup, List.NoDup_filter, NoDup_ListNoDup, IH.
Qed.

Lemma truthy_In {A} (proj : A -> option string) l c :
  In c (FilterOptions.truthy (map proj l)) <->
  c <> "" /\ exists e, In e l /\ proj e = Some c.
Proof.
  unfold FilterOptions.truthy. rewrite <- list_elem_of_In, list_elem_of_omap.
  split.
  - intros (o & Ho & Hc). apply list_elem_of_fmap in Ho as (e & -> & He).
    destruct (proj e) as [s |] eqn:Es; [| discriminate].
    unfold JS.truthy_string in Hc.
    destruct (String.eqb_spec s "") as [-> | N]; [discriminate |].
    injection Hc as <-. split; [exact N |]. exists e.
    split; [now apply list_elem_of_In | exact Es].
  - intros (Hne & e & He & Hp). exists (Some c).
    split; [rewrite <- Hp; apply list_elem_of_fmap_2; now apply list_elem_of_In |].
    now rewrite (truthy_string_nonempty c Hne).
Qed.

(** X17. The category menu of the filters offers each category of the
    imported candidates exactly once, never the empty one, and nothing
    else.  Picking an offered category while no other filter is set shows
    at least one candidate.  The same holds for the type menu. *)
Theorem filter_menus_offer_what_matches lc inc dv st :
  NoDup (FilterOptions.categories st) /\
  NoDup (FilterOptions.expenseTypes st) /\
  (forall c, In c (FilterOptions.categories st) <->
             c <> "" /\ exists e, In e (importedExpenses st) /\
                                  ImportedExpense.category e = Some c) /\
  (forall t, In t (FilterOptions.expenseTypes st) <->
             t <> "" /\ exists e, In e (importedExpenses st) /\
                                  ImportedExpense.expense_type e = Some t) /\
  (forall c, In c (FilterOptions.categories st) ->
             applyFilters lc inc dv (setFilterCategory c (clearFilters st)) <> []) /\
  (forall t, In t (FilterOptions.expenseTypes st) ->
             applyFilters lc inc dv (setFilterType t (clearFilters st)) <> []).
Proof.
  split; [apply distinct_NoDup |]. split; [apply distinct_NoDup |].
  split; [intros c; unfold FilterOptions.categories;
          rewrite distinct_In; apply truthy_In |].
  split; [intros t; unfold FilterOptions.expenseTypes;
          rewrite distinct_In; apply truthy_In |].
  split.
  - intros c Hc. unfold FilterOptions.categories in Hc.
    rewrite distinct_In in Hc. apply truthy_In in Hc as (Hne & e & He & Hcat).
    unfold applyFilters. cbn. rewrite (truthy_string_nonempty c Hne).
    intros Hnil.
    assert (Hin : In e (List.filter
                          (fun e => bool_decide (ImportedExpense.category e = Some c))
                          (importedExpenses st))).
    { apply List.filter_In. split; [exact He | now apply bool_decide_eq_true]. }
    rewrite Hnil in Hin. contradiction.
  - intros t Ht. unfold FilterOptions.expenseTypes in Ht.
    rewrite distinct_In in Ht. apply truthy_In in Ht as (Hne & e & He & Hty).
    unfold applyFilters. cbn. rewrite (truthy_string_nonempty t Hne).
    intros Hnil.
    assert (Hin : In e (List.filter
                          (fun e => bool_decide (ImportedExpense.expense_type e = Some t))
                          (importedExpenses st))).
    { apply List.filter_In. split; [exact He | now apply bool_decide_eq_true]. }
    rewrite Hnil in Hin. contradiction.
Qed.

Lemma filter_menus_offer_what_matches_witness :
  let st := setImportedExpenses Samples.three initial in
  FilterOptions.expenseTypes st = ["borrowed"] /\
  applyFilters Samples.lower Samples.incl Samples.dateOf
    (setFilterType "borrowed" (clearFilters st)) <> [].
Proof.
  split; [reflexivity |].
  apply (filter_menus_offer_what_matches Samples.lower Samples.incl Samples.dateOf
           (setImportedExpenses Samples.three initial)).
  vm_compute. now left.
Defined.

(** ** What the cards and the buttons say *)

Lemma positive_or_negative o :
  JS.truthy_number o = true -> (0 <? o)%float = false -> (o <? 0)%float = true.
Proof.
  unfold JS.truthy_number, is_zero, is_nan.
  rewrite !FloatAxioms.eqb_spec, !FloatAxioms.ltb_spec.
  change (Prim2SF 0%float) with (S754_zero false).
  destruct (Prim2SF o) as [s | s | | s m e]; cbn; try discriminate.
  - now destruct s.
  - now destruct s.
Qed.

Lemma positive_truthy o : (0 <? o)%float = true -> JS.truthy_number o = true.
Proof.
  unfold JS.truthy_number, is_zero, is_nan.
  rewrite !FloatAxioms.eqb_spec, !FloatAxioms.ltb_spec.
  change (Prim2SF 0%float) with (S754_zero false).
  destruct (Prim2SF o) as [s | s | | s m e]; cbn; try discriminate.
  - now destruct s.
  - destruct s; [discriminate |]. intros _.
    now rewrite Z.compare_refl, Pos.compare_cont_refl.
Qed.

(** X18. An expense card shows an amount only if that amount is what the
    expense adds to "You Owe".  An expense whose card shows no amount adds
    0, unless its share is a negative number, which lowers "You Owe"
    without being shown. *)
Theorem shown_amount_is_what_counts e :
  (forall a, DashboardPage.shownAmount e = Some a -> contribution e = a) /\
  (DashboardPage.shownAmount e = None ->
   contribution e = 0%float \/
   exists o, Expense.owed_share e = Some o /\ (o <? 0)%float = true /\
             contribution e = o).
Proof.
  unfold DashboardPage.shownAmount, contribution.
  destruct (Expense.owed_share e) as [o |]; cbn [JS.opt_number_or].
  - destruct (0 <? o)%float eqn:Hpos.
    + split; [| discriminate]. intros a [= <-].
      apply number_or_truthy. now apply positive_truthy.
    + split; [discriminate |]. intros _.
      destruct (JS.truthy_number o) eqn:Ht.
      * right. exists o. split; [reflexivity |].
        split; [now apply positive_or_negative | now apply number_or_truthy].
      * left. now apply number_or_falsy.
  - split; [discriminate | now left].
Qed.

Lemma shown_amount_is_what_counts_witness :
  contribution (sample "e-1" 30%float (Some 12.5%float) None) = 12.5%float.
Proof.
  apply (proj1 (shown_amount_is_what_counts
                  (sample "e-1" 30%float (Some 12.5%float) None))).
  reflexivity.
Defined.

(** X19. While a candidate is under review, the save button reads
    "Save & Finish" exactly when an accepted save completes the review, and
    "Save & Next" exactly when it moves on to the next candidate. *)
Theorem save_label_tells_what_save_does props st w i N :
  reviewingAt i N st ->
  let st' := fst (handleSaveExpense props Accepted st w) in
  (Review.saveLabel st = "Save & Finish" <-> complete st') /\
  (Review.saveLabel st = "Save & Next" <-> reviewingAt (i + 1) N st').
Proof.
  intros Hrev. pose proof Hrev as (Hm & Hi & HN & Hlt & [c Hc]).
  cbv zeta. unfold Review.saveLabel, handleSaveExpense. rewrite Hc, Hi, HN.
  destruct (Z.ltb_spec (Z.of_nat i) (Z.of_nat N - 1)) as [Hnext | Hlast].
  - destruct (Nat.ltb_spec (i + 1) N) as [Hn | Hn]; [| lia]. cbn [fst].
    split; split; try discriminate.
    + intros (Hclosed & _). cbn in Hclosed. congruence.
    + intros _. now apply moveTo_reviewingAt.
    + reflexivity.
  - destruct (Nat.ltb_spec (i + 1) N) as [Hn | Hn]; [lia |]. cbn [fst].
    split; split; try discriminate.
    + intros _. apply setMessage_complete, closeReview_complete.
    + reflexivity.
    + intros (Hopen & _). cbn in Hopen. discriminate.
Qed.

Lemma save_label_tells_what_save_does_witness :
  let st := Samples.reviewing Samples.three in
  let st' := fst (handleSaveExpense dashboardProps Accepted st Samples.world0) in
  (Review.saveLabel st = "Save & Finish" <-> complete st') /\
  (Review.saveLabel st = "Save & Next" <-> reviewingAt (0 + 1) 3 st').
Proof.
  apply (save_label_tells_what_save_does dashboardProps
           (Samples.reviewing Samples.three) Samples.world0 0 3).
  repeat split; [lia | eexists; vm_compute; reflexivity].
Defined.
